(** * Posture scoring and feedback engine (src/main.py)

    A shallow embedding of [calculate_overall_score] and
    [analyze_posture_endpoint], followed by the properties that the
    specification states about them.

    The metric mapping is a Python [dict] whose values are arbitrary JSON
    values ([Dict[str, Any]]); the operations [abs] and [>] raise
    [TypeError] on the values that are not numbers, and the two [try]
    blocks of the endpoint are modelled as they are nested in the source. *)

From Stdlib Require Import ZArith QArith Qabs Lia Lqa String Ascii List.
From Stdlib Require Import Floats.SpecFloat.
From stdpp Require Import gmap strings.

Local Open Scope Z_scope.
Local Open Scope string_scope.

(** ** Python values *)

(** The values a JSON body can put under a key of [metrics]. A Python
    [float] is an IEEE 754 binary64 number, kept as [spec_float]. *)
#[warnings="-register-all"]
Inductive pyval : Type :=
| PNone
| PBool (b : bool)
| PInt (z : Z)
| PFloat (f : spec_float)
| PStr (s : string)
| PList (l : list pyval)
| PDict (d : list (string * pyval)).

Definition type_name (v : pyval) : string :=
  match v with
  | PNone => "NoneType"
  | PBool _ => "bool"
  | PInt _ => "int"
  | PFloat _ => "float"
  | PStr _ => "str"
  | PList _ => "list"
  | PDict _ => "dict"
  end.

(** [x is None] *)
Definition is_None (v : pyval) : bool :=
  match v with PNone => true | _ => false end.

(** ** Exceptions *)

Inductive pyexn : Type :=
| TypeError (msg : string).

(** [str(e)] *)
Definition exn_str (e : pyexn) : string :=
  match e with TypeError msg => msg end.

Inductive result (E A : Type) : Type :=
| Ok (a : A)
| Raise (e : E).
Arguments Ok {E A} a.
Arguments Raise {E A} e.

Definition py (A : Type) : Type := result pyexn A.

Definition py_bind {A B : Type} (c : py A) (k : A -> py B) : py B :=
  match c with
  | Ok a => k a
  | Raise e => Raise e
  end.

Notation "'let!' x ':=' c 'in' k" := (py_bind c (fun x => k))
  (at level 10, x name, c at level 100, k at level 200, only parsing).

(** ** Numbers

    Python orders [bool], [int] and [float] operands by their exact
    mathematical value (an [int] is never rounded to a [float] for a
    comparison); NaN is unordered. The value of a number is therefore
    taken in the rationals extended with the two infinities and NaN. *)

Inductive xnum : Type :=
| XNaN
| XInf (negative : bool)
| XFin (q : Q).

Definition SF2X (f : spec_float) : xnum :=
  match f with
  | S754_zero _ => XFin 0%Q
  | S754_infinity s => XInf s
  | S754_nan => XNaN
  | S754_finite s m e =>
      XFin (inject_Z (if s then Z.neg m else Z.pos m) * Qpower 2 e)%Q
  end.

Definition num (v : pyval) : option xnum :=
  match v with
  | PBool b => Some (XFin (if b then 1 else 0)%Q)
  | PInt z => Some (XFin (inject_Z z))
  | PFloat f => Some (SF2X f)
  | _ => None
  end.

Definition is_number (v : pyval) : bool :=
  match num v with Some _ => true | None => false end.

Definition xgt (a b : xnum) : bool :=
  match a, b with
  | XNaN, _ | _, XNaN => false
  | XInf true, _ => false
  | XInf false, XInf false => false
  | XInf false, _ => true
  | XFin _, XInf n => n
  | XFin p, XFin q => match (p ?= q)%Q with Gt => true | _ => false end
  end.

Definition xle (a b : xnum) : bool :=
  match a, b with
  | XNaN, _ | _, XNaN => false
  | XInf true, _ => true
  | XInf false, XInf false => true
  | XInf false, _ => false
  | XFin _, XInf n => negb n
  | XFin p, XFin q => match (p ?= q)%Q with Gt => false | _ => true end
  end.

(** [abs(x)]: a [bool] is an [int]; anything that is not a number raises. *)
Definition py_abs (x : pyval) : py pyval :=
  match x with
  | PBool b => Ok (PInt (if b then 1 else 0))
  | PInt z => Ok (PInt (Z.abs z))
  | PFloat f => Ok (PFloat (SFabs f))
  | _ => Raise (TypeError ("bad operand type for abs(): '" ++ type_name x ++ "'"))
  end.

Definition compare_error (op : string) (x y : pyval) : pyexn :=
  TypeError ("'" ++ op ++ "' not supported between instances of '"
             ++ type_name x ++ "' and '" ++ type_name y ++ "'").

(** [x > y] and [x <= y] with a number on the right, which is the only
    way the program uses them. *)
Definition py_gt (x y : pyval) : py bool :=
  match num x, num y with
  | Some a, Some b => Ok (xgt a b)
  | _, _ => Raise (compare_error ">" x y)
  end.

Definition py_le (x y : pyval) : py bool :=
  match num x, num y with
  | Some a, Some b => Ok (xle a b)
  | _, _ => Raise (compare_error "<=" x y)
  end.

(** [round(n)] of an [int] is that [int]; the score only ever holds one. *)
Definition py_round (n : Z) : Z := n.

(** ** Strings

    A [str] is kept as the string of its bytes: [lower] and [strip] act
    on the ASCII letters and the ASCII white space, which is all that the
    tokens and the sentences of the program contain. *)

Definition lower_ascii (c : ascii) : ascii :=
  let n := nat_of_ascii c in
  if (65 <=? n)%nat && (n <=? 90)%nat then ascii_of_nat (n + 32) else c.

(** [s.lower()] *)
Fixpoint lower (s : string) : string :=
  match s with
  | EmptyString => EmptyString
  | String c s' => String (lower_ascii c) (lower s')
  end.

(** [sub in s] *)
Fixpoint contains (sub s : string) : bool :=
  if String.prefix sub s then true
  else match s with
       | EmptyString => false
       | String _ s' => contains sub s'
       end.

(** [sep.join(l)] *)
Fixpoint join (sep : string) (l : list string) : string :=
  match l with
  | [] => ""
  | [x] => x
  | x :: l' => x ++ sep ++ join sep l'
  end.

(** [s.replace(old, new)]: occurrences are taken from the left and do not
    overlap. [skip] counts the characters of a matched occurrence that
    are still to be dropped. *)
Fixpoint replace_from (old new : string) (skip : nat) (s : string) : string :=
  match s with
  | EmptyString => EmptyString
  | String c s' =>
      match skip with
      | S k => replace_from old new k s'
      | O =>
          if String.prefix old s
          then new ++ replace_from old new (String.length old - 1) s'
          else String c (replace_from old new 0 s')
      end
  end.

Definition replace (old new s : string) : string :=
  match old with
  | EmptyString => new ++ String.concat new (map (fun c => String c "") (list_ascii_of_string s)) ++
                   (if String.eqb s "" then "" else new)
  | _ => replace_from old new 0 s
  end.

(** The ASCII characters for which [str.isspace] holds. *)
Definition is_space (c : ascii) : bool :=
  let n := nat_of_ascii c in
  ((9 <=? n)%nat && (n <=? 13)%nat) || ((28 <=? n)%nat && (n <=? 32)%nat).

Fixpoint lstrip (s : string) : string :=
  match s with
  | EmptyString => EmptyString
  | String c s' => if is_space c then lstrip s' else s
  end.

Fixpoint rstrip (s : string) : string :=
  match s with
  | EmptyString => EmptyString
  | String c s' =>
      match rstrip s' with
      | EmptyString => if is_space c then EmptyString else String c EmptyString
      | r => String c r
      end
  end.

(** [s.strip()] *)
Definition strip (s : string) : string := rstrip (lstrip s).

(** [list(dict.fromkeys(l))]: a [dict] keeps its keys in insertion order
    and setting a key that is already there does not move it. *)
Definition fromkeys_insert (keys : list string) (k : string) : list string :=
  if bool_decide (k ∈ keys) then keys else keys ++ [k].

Definition dict_fromkeys (l : list string) : list string :=
  fold_left fromkeys_insert l [].

(** ** Constants *)

Module THRESHOLDS.
(** The binary64 value of each literal of the table. *)
Definition shoulder_angle_warning : spec_float :=      (* 5.0 *)
    S754_finite false 5629499534213120 (-50).
Definition shoulder_angle_significant : spec_float :=  (* 10.0 *)
    S754_finite false 5629499534213120 (-49).
Definition head_forward_ratio_warning : spec_float :=  (* 0.1 *)
    S754_finite false 7205759403792794 (-56).
Definition head_forward_ratio_significant : spec_float := (* 0.15 *)
    S754_finite false 5404319552844595 (-55).
Definition torso_angle_warning : spec_float :=         (* 15.0 *)
    S754_finite false 8444249301319680 (-49).
Definition torso_angle_significant : spec_float :=     (* 20.0 *)
    S754_finite false 5629499534213120 (-48).
Definition spine_offset_ratio_warning : spec_float :=  (* 0.15 *)
    S754_finite false 5404319552844595 (-55).
Definition spine_offset_ratio_significant : spec_float := (* 0.20 *)
    S754_finite false 7205759403792794 (-55).
End THRESHOLDS.

Module PENALTIES.
Definition significant : Z := 22.
Definition warning : Z := 14.
Definition missing_data_low : Z := 5.
Definition visibility_issue : Z := 6.
End PENALTIES.

(** [metrics.get(key)] *)
Definition get (metrics : gmap string pyval) (key : string) : pyval :=
  default PNone (metrics !! key).

(** ** Helper: score calculation *)

Definition calculate_overall_score
    (metrics : gmap string pyval) (issues : list string) : py (option Z) :=
  if bool_decide (metrics = ∅)
     && (bool_decide (issues = [])
         || forallb (fun i => contains "visibility" (lower i)
                              || contains "waiting" (lower i)) issues)
  then Ok None
  else
    let score := 100 in
    let has_visibility_issue :=
      existsb (fun i => contains "visibility" (lower i)) issues in
    (* Shoulder Angle *)
    let shoulder_angle := get metrics "shoulderAngle" in
    let! score :=
      if negb (is_None shoulder_angle) then
        let! abs_angle := py_abs shoulder_angle in
        let! sig := py_gt abs_angle (PFloat THRESHOLDS.shoulder_angle_significant) in
        if sig then Ok (score - PENALTIES.significant)
        else
          let! warn := py_gt abs_angle (PFloat THRESHOLDS.shoulder_angle_warning) in
          if warn then Ok (score - PENALTIES.warning) else Ok score
      else if negb has_visibility_issue then Ok (score - PENALTIES.missing_data_low)
      else Ok score in
    (* Torso Angle *)
    let torso_angle := get metrics "torsoAngleFromVertical" in
    let! score :=
      if negb (is_None torso_angle) then
        let! abs_angle := py_abs torso_angle in
        let! sig := py_gt abs_angle (PFloat THRESHOLDS.torso_angle_significant) in
        if sig then Ok (score - PENALTIES.significant)
        else
          let! warn := py_gt abs_angle (PFloat THRESHOLDS.torso_angle_warning) in
          if warn then Ok (score - PENALTIES.warning) else Ok score
      else if negb has_visibility_issue then Ok (score - PENALTIES.missing_data_low)
      else Ok score in
    (* Spine Horizontal Offset *)
    let spine_offset := get metrics "spineHorizontalOffsetRatio" in
    let! score :=
      if negb (is_None spine_offset) then
        let! sig := py_gt spine_offset (PFloat THRESHOLDS.spine_offset_ratio_significant) in
        if sig then Ok (score - PENALTIES.significant)
        else
          let! warn := py_gt spine_offset (PFloat THRESHOLDS.spine_offset_ratio_warning) in
          if warn then Ok (score - PENALTIES.warning) else Ok score
      else if negb has_visibility_issue then Ok (score - PENALTIES.missing_data_low)
      else Ok score in
    (* Head Forward Ratio *)
    let head_forward := get metrics "headForwardRatio" in
    let! score :=
      if negb (is_None head_forward) then
        let! sig := py_gt head_forward (PFloat THRESHOLDS.head_forward_ratio_significant) in
        if sig then Ok (score - PENALTIES.significant)
        else
          let! warn := py_gt head_forward (PFloat THRESHOLDS.head_forward_ratio_warning) in
          if warn then Ok (score - PENALTIES.warning) else Ok score
      else if negb has_visibility_issue then Ok (score - PENALTIES.missing_data_low)
      else Ok score in
    (* Visibility Penalty *)
    let score :=
      if has_visibility_issue then score - PENALTIES.visibility_issue else score in
    let final_score := Z.max 0 (Z.min 100 (py_round score)) in
    Ok (Some final_score).


(** ** Pydantic models *)

Module PostureMetricsInput.
Record t : Type := {
  metrics : option (gmap string pyval);
  issues : option (list string)
}.
End PostureMetricsInput.

Module PostureFeedback.
Record t : Type := {
  score : option Z;
  assessment : option string;
  recommendations : list string;
  maintenance_tips : list string;
  benefits : option string
}.
End PostureFeedback.

Record HTTPException : Type := {
  status_code : Z;
  detail : string
}.

(** ** Statements over the two lists the endpoint fills

    [assessment_parts] and [recommendations] are Python lists mutated in
    place, so what was appended before an exception is still there when
    the [except] clause runs: a statement returns the lists also when it
    raises. *)

Record lists : Type := {
  assessment_parts : list string;
  recommendations : list string
}.

Definition stmt (A : Type) : Type := lists -> py A * lists.

Definition stmt_bind {A B : Type} (c : stmt A) (k : A -> stmt B) : stmt B :=
  fun st =>
    match c st with
    | (Ok a, st') => k a st'
    | (Raise e, st') => (Raise e, st')
    end.

(** An expression: it reads no list and changes none. *)
Definition eval {A : Type} (c : py A) : stmt A := fun st => (c, st).

Definition pass : stmt unit := fun st => (Ok tt, st).

Definition parts_append (p : string) : stmt unit :=
  fun st => (Ok tt, {| assessment_parts := assessment_parts st ++ [p];
                       recommendations := recommendations st |}).

Definition recs_append (r : string) : stmt unit :=
  fun st => (Ok tt, {| assessment_parts := assessment_parts st;
                       recommendations := recommendations st ++ [r] |}).

Definition recs_extend (l : list string) : stmt unit :=
  fun st => (Ok tt, {| assessment_parts := assessment_parts st;
                       recommendations := recommendations st ++ l |}).

(** [try: body except Exception as e: handler e] *)
Definition try_except {A : Type} (body : stmt A) (handler : pyexn -> stmt A) : stmt A :=
  fun st =>
    match body st with
    | (Ok a, st') => (Ok a, st')
    | (Raise e, st') => handler e st'
    end.

Notation "'do' x '<-' c ';' k" := (stmt_bind c (fun x => k))
  (at level 10, x name, c at level 100, k at level 200, only parsing).
Notation "c1 ';;' c2" := (stmt_bind c1 (fun _ => c2))
  (at level 100, c2 at level 200, right associativity, only parsing).

(** ** The endpoint: assessment and recommendations (lines 143-185) *)

Definition analyze_metrics (metrics : gmap string pyval) : stmt unit :=
  (* Shoulder Balance *)
  let shoulder_angle := get metrics "shoulderAngle" in
  (if negb (is_None shoulder_angle) then
     do abs_angle <- eval (py_abs shoulder_angle);
     do sig <- eval (py_gt abs_angle (PFloat THRESHOLDS.shoulder_angle_significant));
     if sig then
       parts_append "Shoulders significantly uneven." ;;
       recs_extend ["Sit evenly, relax shoulders."; "Check armrest height/usage."]
     else
       do warn <- eval (py_gt abs_angle (PFloat THRESHOLDS.shoulder_angle_warning));
       if warn then
         parts_append "Shoulders slightly uneven." ;;
         recs_append "Be mindful of keeping shoulders level."
       else pass
   else pass) ;;
  (* Torso Lean (Sideways) *)
  let spine_offset := get metrics "spineHorizontalOffsetRatio" in
  (if negb (is_None spine_offset) then
     do sig <- eval (py_gt spine_offset (PFloat THRESHOLDS.spine_offset_ratio_significant));
     if sig then
       parts_append "Significant sideways lean." ;;
       recs_extend ["Engage core, sit centered."; "Avoid leaning heavily on one armrest."]
     else
       do warn <- eval (py_gt spine_offset (PFloat THRESHOLDS.spine_offset_ratio_warning));
       if warn then
         parts_append "Slight sideways lean." ;;
         recs_append "Check if leaning towards monitor or on armrest."
       else pass
   else pass) ;;
  (* Torso Slouch / Lean Fwd/Back (Vertical Angle) *)
  let torso_angle := get metrics "torsoAngleFromVertical" in
  (if negb (is_None torso_angle) then
     do abs_angle <- eval (py_abs torso_angle);
     do sig <- eval (py_gt abs_angle (PFloat THRESHOLDS.torso_angle_significant));
     if sig then
       parts_append "Significant slouch or backward lean." ;;
       recs_extend ["Sit tall, chest up."; "Use lumbar support actively.";
                    "Stretch chest/back during breaks."]
     else
       do warn <- eval (py_gt abs_angle (PFloat THRESHOLDS.torso_angle_warning));
       if warn then
         parts_append "Slight slouch or backward lean." ;;
         recs_append "Gently pull shoulder blades back/down. Imagine head pulled up."
       else pass
   else pass) ;;
  (* Forward Head *)
  let head_forward := get metrics "headForwardRatio" in
  (if negb (is_None head_forward) then
     do sig <- eval (py_gt head_forward (PFloat THRESHOLDS.head_forward_ratio_significant));
     if sig then
       parts_append "Significant forward head posture." ;;
       recs_extend ["Gently tuck chin (ears over shoulders).";
                    "Ensure monitor at eye level & arm's length."]
     else
       do warn <- eval (py_gt head_forward (PFloat THRESHOLDS.head_forward_ratio_warning));
       if warn then
         parts_append "Slight forward head posture." ;;
         recs_append "Perform chin tucks periodically. Check monitor distance."
       else pass
   else pass).

(** The inner [try] of the endpoint (lines 143-188), run on the two empty
    lists: the [except] clause appends its phrase to whatever the body
    had appended, and nothing is raised further. *)
Definition generate_assessment (metrics : gmap string pyval) : lists :=
  snd (try_except (analyze_metrics metrics)
         (fun metric_error => parts_append "Error during metric analysis.")
         {| assessment_parts := []; recommendations := [] |}).

Definition maintenance_tips : list string :=
  [ "Take brief breaks every 30 mins to stretch/move.";
    "Ensure feet flat, knees ~90°, back supported.";
    "Keep elbows near 90° while typing, close to body.";
    "Monitor top roughly at eye level, arm's length away.";
    "Use lumbar support for spine's natural curve." ].

Definition benefits : string :=
  "Good posture reduces pain (back, neck, shoulders), improves breathing & focus, and prevents long-term spinal issues.".

(** [data.metrics if isinstance(data.metrics, dict) else {}] *)
Definition metrics_of (data : PostureMetricsInput.t) : gmap string pyval :=
  match PostureMetricsInput.metrics data with Some d => d | None => ∅ end.

(** [data.issues if isinstance(data.issues, list) else []] *)
Definition issues_of (data : PostureMetricsInput.t) : list string :=
  match PostureMetricsInput.issues data with Some l => l | None => [] end.

(** The body of the outer [try] (lines 128-232). *)
Definition analyze_posture_body (data : PostureMetricsInput.t) : py PostureFeedback.t :=
  let metrics := metrics_of data in
  let frontend_issues := issues_of data in
  let st := generate_assessment metrics in
  let assessment_parts := assessment_parts st in
  let recommendations := recommendations st in
  (* Calculate Score *)
  let! final_score := calculate_overall_score metrics frontend_issues in
  (* Compile Final Assessment String *)
  let has_specific_posture_issue := negb (bool_decide (assessment_parts = [])) in
  let has_visibility_issue :=
    existsb (fun p => contains "visibility" (lower p) || contains "unclear" (lower p))
            frontend_issues in
  let is_waiting := existsb (fun p => contains "waiting" (lower p)) frontend_issues in
  let final_assessment :=
    if bool_decide (assessment_parts = []) && negb has_visibility_issue && negb is_waiting
    then "Posture analysis indicates good alignment."
    else if has_visibility_issue && bool_decide (assessment_parts = [])
    then "Could not analyze clearly due to visibility. Adjust position/lighting."
    else if is_waiting && bool_decide (assessment_parts = [])
    then "Waiting for clearer pose data."
    else
      let unique_parts := dict_fromkeys assessment_parts in
      let final_assessment := join ". " unique_parts ++ "." in
      if has_visibility_issue
      then final_assessment ++ " Visibility may affect accuracy."
      else final_assessment in
  let final_assessment := strip (replace ".." "." final_assessment) in
  (* Determine if extra tips should be shown *)
  let show_extras := false in
  let '(final_assessment, show_extras) :=
    if match final_score with Some s => (85 <=? s)%Z | None => false end
       && negb has_specific_posture_issue && negb has_visibility_issue
    then ("Posture looks great! Keep it up.", true)
    else if has_specific_posture_issue then (final_assessment, true)
    else (final_assessment, show_extras) in
  let unique_recommendations :=
    dict_fromkeys (List.filter (fun rec => negb (String.eqb rec "")) recommendations) in
  (* Override if only visibility/waiting *)
  let '(unique_recommendations, show_extras) :=
    if (has_visibility_issue || is_waiting) && negb has_specific_posture_issue
    then ([], false)
    else (unique_recommendations, show_extras) in
  Ok {| PostureFeedback.score := final_score;
        PostureFeedback.assessment := Some final_assessment;
        PostureFeedback.recommendations := unique_recommendations;
        PostureFeedback.maintenance_tips := if show_extras then maintenance_tips else [];
        PostureFeedback.benefits := if show_extras then Some benefits else None |}.

(** The outer [try]: any exception of the body becomes an HTTP 500. *)
Definition analyze_posture_endpoint (data : PostureMetricsInput.t)
  : result HTTPException PostureFeedback.t :=
  match analyze_posture_body data with
  | Ok feedback => Ok feedback
  | Raise e =>
      Raise {| status_code := 500;
               detail := "Internal error during analysis: " ++ exn_str e |}
  end.

Definition request (m : gmap string pyval) (i : list string) : PostureMetricsInput.t :=
  {| PostureMetricsInput.metrics := Some m; PostureMetricsInput.issues := Some i |}.


(** ** Severity of one metric

    Scorer and endpoint grade every metric with the same two comparisons.
    The definitions below name that grading; the lemmas of the next part
    show that each block of the source computes it. *)

Inductive severity : Type := Fine | Warning | Significant.

Inductive outcome : Type :=
| Absent
| Faulty (e : pyexn)
| Measured (s : severity).

Definition grade (x : pyval) (sig warn : spec_float) : py severity :=
  let! s := py_gt x (PFloat sig) in
  if s then Ok Significant
  else let! w := py_gt x (PFloat warn) in
       if w then Ok Warning else Ok Fine.

Definition outcome_of (v : pyval) (c : py severity) : outcome :=
  if is_None v then Absent
  else match c with Ok s => Measured s | Raise e => Faulty e end.

(** Graded on the absolute value ([shoulderAngle], [torsoAngleFromVertical]). *)
Definition classify_abs (v : pyval) (sig warn : spec_float) : outcome :=
  outcome_of v (let! a := py_abs v in grade a sig warn).

(** Graded on the raw value (the two ratios). *)
Definition classify_raw (v : pyval) (sig warn : spec_float) : outcome :=
  outcome_of v (grade v sig warn).

Definition shoulder_outcome (m : gmap string pyval) : outcome :=
  classify_abs (get m "shoulderAngle")
    THRESHOLDS.shoulder_angle_significant THRESHOLDS.shoulder_angle_warning.

Definition torso_outcome (m : gmap string pyval) : outcome :=
  classify_abs (get m "torsoAngleFromVertical")
    THRESHOLDS.torso_angle_significant THRESHOLDS.torso_angle_warning.

Definition spine_outcome (m : gmap string pyval) : outcome :=
  classify_raw (get m "spineHorizontalOffsetRatio")
    THRESHOLDS.spine_offset_ratio_significant THRESHOLDS.spine_offset_ratio_warning.

Definition head_outcome (m : gmap string pyval) : outcome :=
  classify_raw (get m "headForwardRatio")
    THRESHOLDS.head_forward_ratio_significant THRESHOLDS.head_forward_ratio_warning.

Definition severity_penalty (s : severity) : Z :=
  match s with
  | Fine => 0
  | Warning => PENALTIES.warning
  | Significant => PENALTIES.significant
  end.

(** What one metric takes off the running score. *)
Definition charge (has_visibility_issue : bool) (o : outcome) (score : Z) : py Z :=
  match o with
  | Absent =>
      if negb has_visibility_issue then Ok (score - PENALTIES.missing_data_low)
      else Ok score
  | Faulty e => Raise e
  | Measured s => Ok (score - severity_penalty s)
  end.

Record wording : Type := {
  significant_phrase : string;
  significant_recs : list string;
  warning_phrase : string;
  warning_rec : string
}.

(** What one metric appends to the two lists. *)
Definition report (o : outcome) (w : wording) : stmt unit :=
  match o with
  | Absent | Measured Fine => pass
  | Faulty e => eval (Raise e)
  | Measured Significant =>
      parts_append (significant_phrase w) ;; recs_extend (significant_recs w)
  | Measured Warning =>
      parts_append (warning_phrase w) ;; recs_append (warning_rec w)
  end.

Definition shoulder_wording : wording :=
  {| significant_phrase := "Shoulders significantly uneven.";
     significant_recs := ["Sit evenly, relax shoulders."; "Check armrest height/usage."];
     warning_phrase := "Shoulders slightly uneven.";
     warning_rec := "Be mindful of keeping shoulders level." |}.

Definition spine_wording : wording :=
  {| significant_phrase := "Significant sideways lean.";
     significant_recs := ["Engage core, sit centered."; "Avoid leaning heavily on one armrest."];
     warning_phrase := "Slight sideways lean.";
     warning_rec := "Check if leaning towards monitor or on armrest." |}.

Definition torso_wording : wording :=
  {| significant_phrase := "Significant slouch or backward lean.";
     significant_recs := ["Sit tall, chest up."; "Use lumbar support actively.";
                          "Stretch chest/back during breaks."];
     warning_phrase := "Slight slouch or backward lean.";
     warning_rec := "Gently pull shoulder blades back/down. Imagine head pulled up." |}.

Definition head_wording : wording :=
  {| significant_phrase := "Significant forward head posture.";
     significant_recs := ["Gently tuck chin (ears over shoulders).";
                          "Ensure monitor at eye level & arm's length."];
     warning_phrase := "Slight forward head posture.";
     warning_rec := "Perform chin tucks periodically. Check monitor distance." |}.

(** Line 113. *)
Definition clamp (score : Z) : Z := Z.max 0 (Z.min 100 (py_round score)).

(** The lists the endpoint would hold after its inner [try] if the four
    metrics had the given outcomes. *)
Definition assess_outcomes (shoulder spine torso head : outcome) : lists :=
  snd (try_except
         (report shoulder shoulder_wording ;;
          report spine spine_wording ;;
          report torso torso_wording ;;
          report head head_wording)
         (fun metric_error => parts_append "Error during metric analysis.")
         {| assessment_parts := []; recommendations := [] |}).

Definition is_fault (o : outcome) : bool :=
  match o with Faulty _ => true | _ => false end.

(** ** Conditions on the input *)

(** An issue string mentions a token: [token in issue.lower()]. *)
Definition mentions (token issue : string) : Prop :=
  contains token (lower issue) = true.

(** The test of line 71. *)
Definition insufficient_data (metrics : gmap string pyval) (issues : list string) : bool :=
  bool_decide (metrics = ∅)
  && (bool_decide (issues = [])
      || forallb (fun i => contains "visibility" (lower i)
                           || contains "waiting" (lower i)) issues).

Definition scorer_visibility (issues : list string) : bool :=
  existsb (fun i => contains "visibility" (lower i)) issues.

Definition composer_visibility (issues : list string) : bool :=
  existsb (fun p => contains "visibility" (lower p) || contains "unclear" (lower p)) issues.

Definition composer_waiting (issues : list string) : bool :=
  existsb (fun p => contains "waiting" (lower p)) issues.

(** A value on which neither [abs] nor [>] raises, or [None]. *)
Definition numeric_or_null (v : pyval) : bool := is_None v || is_number v.

(** A value on which the grading of a metric raises. *)
Definition faulty (v : pyval) : bool := negb (numeric_or_null v).

(** The four recognized keys, in the order the endpoint evaluates them. *)
Definition assessor_order : list string :=
  ["shoulderAngle"; "spineHorizontalOffsetRatio"; "torsoAngleFromVertical";
   "headForwardRatio"].

(** The spec's MetricSet: every recognized key is absent, null or a number. *)
Definition MetricSet (m : gmap string pyval) : bool :=
  forallb (fun k => numeric_or_null (get m k)) assessor_order.

(** ** The composition of the response

    The part of the endpoint after the score is known (lines 194-232),
    with its flags named. *)

Definition score_at_least_85 (final_score : option Z) : bool :=
  match final_score with Some s => (85 <=? s)%Z | None => false end.

Definition only_visibility_or_waiting (st : lists) (issues : list string) : bool :=
  (composer_visibility issues || composer_waiting issues)
  && bool_decide (assessment_parts st = []).

Definition looks_great (final_score : option Z) (st : lists) (issues : list string) : bool :=
  score_at_least_85 final_score
  && bool_decide (assessment_parts st = [])
  && negb (composer_visibility issues).

Definition show_extras (final_score : option Z) (st : lists) (issues : list string) : bool :=
  if only_visibility_or_waiting st issues then false
  else if looks_great final_score st issues then true
  else negb (bool_decide (assessment_parts st = [])).

Definition compiled_assessment (st : lists) (issues : list string) : string :=
  let has_visibility_issue := composer_visibility issues in
  let is_waiting := composer_waiting issues in
  strip (replace ".." "."
    (if bool_decide (assessment_parts st = []) && negb has_visibility_issue && negb is_waiting
     then "Posture analysis indicates good alignment."
     else if has_visibility_issue && bool_decide (assessment_parts st = [])
     then "Could not analyze clearly due to visibility. Adjust position/lighting."
     else if is_waiting && bool_decide (assessment_parts st = [])
     then "Waiting for clearer pose data."
     else
       let final_assessment := join ". " (dict_fromkeys (assessment_parts st)) ++ "." in
       if has_visibility_issue
       then final_assessment ++ " Visibility may affect accuracy."
       else final_assessment)).

Definition compose (final_score : option Z) (st : lists) (issues : list string)
  : PostureFeedback.t :=
  {| PostureFeedback.score := final_score;
     PostureFeedback.assessment :=
       Some (if looks_great final_score st issues
             then "Posture looks great! Keep it up."
             else compiled_assessment st issues);
     PostureFeedback.recommendations :=
       if only_visibility_or_waiting st issues then []
       else dict_fromkeys
              (List.filter (fun rec => negb (String.eqb rec "")) (recommendations st));
     PostureFeedback.maintenance_tips :=
       if show_extras final_score st issues then maintenance_tips else [];
     PostureFeedback.benefits :=
       if show_extras final_score st issues then Some benefits else None |}.

(** An outcome that appends nothing. *)
Definition is_quiet (o : outcome) : bool :=
  match o with Absent | Measured Fine => true | _ => false end.

(** [d] lists elements of [l] in the order of their first occurrences:
    whenever [x] comes before [y] in [d], [x] occurs in [l] before the
    first [y]. *)
Definition first_occurrence_order (l d : list string) : Prop :=
  forall (d1 : list string) x d2 y d3, d = (d1 ++ x :: d2 ++ y :: d3)%list ->
    exists l1 l2 : list string, l = (l1 ++ y :: l2)%list /\ (y ∉ l1) /\ (x ∈ l1).

(** [t] is a valid binary64 number and no binary64 number is nearer to the
    decimal [d]: the distance is at most half a unit in the last place. *)
Definition literal (t : spec_float) (d : Q) : Prop :=
  match t with
  | S754_finite false m e =>
      SpecFloat.valid_binary 53 1024 t = true
      /\ (Qabs (inject_Z (Z.pos m) * Qpower 2 e - d) <= Qpower 2 (e - 1))%Q
  | _ => False
  end.

(** ** Inputs used below *)

(** 25.0 as a binary64 number. *)
Definition float_25 : spec_float := S754_finite false 7036874417766400 (-48).

(** Exactly one recognized metric holds a value on which its evaluation
    raises. *)
Definition sole_fault (m : gmap string pyval) (k : string) : bool :=
  bool_decide (k ∈ assessor_order) && faulty (get m k)
  && forallb (fun k' => bool_decide (k' = k) || negb (faulty (get m k'))) assessor_order.

(** The containment as the spec words it: the lists are those of the
    input without the faulting metric, with the error phrase put in
    somewhere, and the request is answered. *)
Definition contained_per_metric (m : gmap string pyval) (i : list string) (k : string)
  : Prop :=
  let got := generate_assessment m in
  let without := generate_assessment (delete k m) in
  (exists l1 l2 : list string,
      assessment_parts got = (l1 ++ ["Error during metric analysis."] ++ l2)%list
      /\ (l1 ++ l2)%list = assessment_parts without)
  /\ recommendations got = recommendations without
  /\ exists fb, analyze_posture_endpoint (request m i) = Ok fb.

Definition faulty_shoulder : gmap string pyval :=
  {[ "shoulderAngle" := PStr "left"; "torsoAngleFromVertical" := PInt 25 ]}.

(** ** The other endpoints *)

(** A bare [Response]: only its status code is set. *)
Record Response : Type := {
  response_status_code : Z
}.

(** [GET /favicon.ico] (line 121). *)
Definition favicon : Response := {| response_status_code := 204 |}.

Record DeskSetupTips : Type := {
  tips : list string
}.

(** [GET /desk_setup] (lines 240-252). *)
Definition get_desk_setup_tips_endpoint : DeskSetupTips :=
  {| tips :=
       [ "**Monitor:** Top edge at/below eye level, arm's length away.";
         "**Chair:** Feet flat (use footrest if needed), knees ~level with hips, proper back support.";
         "**Keyboard/Mouse:** Close to body, elbows ~90°, straight wrists.";
         "**Desk Height:** Adjust chair first, then desk for parallel forearms.";
         "**Lighting:** Avoid screen glare; use task lighting if needed.";
         "**Breaks:** Stand, stretch, walk around every 30-60 mins.";
         "**Accessories:** Consider document holder, headset for calls." ] |}.

(** [GET /] (lines 255-257): a one-entry [dict]. *)
Definition root : list (string * string) :=
  [ ("message", "Posture Assistant API is running!") ].

(** ** What the score and the response depend on *)

(** The points one metric costs (nothing is charged once a metric has
    raised). *)
Definition cost (has_visibility_issue : bool) (o : outcome) : Z :=
  match o with
  | Absent => if has_visibility_issue then 0 else PENALTIES.missing_data_low
  | Faulty _ => 0
  | Measured s => severity_penalty s
  end.

(** The [all(...)] of line 71. *)
Definition all_explained (issues : list string) : bool :=
  forallb (fun i => contains "visibility" (lower i) || contains "waiting" (lower i)) issues.

(** The points a phrase of the response stands for. *)
Definition phrase_points (phrase : string) : Z :=
  if contains "significant" (lower phrase) then PENALTIES.significant
  else PENALTIES.warning.

(** The recognized metrics that are absent or null. *)
Definition missing (m : gmap string pyval) : Z :=
  Z.of_nat (length (List.filter (fun k => is_None (get m k)) assessor_order)).

Definition sum_points (phrases : list string) : Z :=
  fold_right Z.add 0 (map phrase_points phrases).

(** The severity of an integer against two integer cutoffs. *)
Definition band (significant_above warning_above z : Z) : severity :=
  if (significant_above <? z)%Z then Significant
  else if (warning_above <? z)%Z then Warning
  else Fine.

(** The outcome of a value under the rule of the recognized key [k]. *)
Definition classify_at (k : string) (v : pyval) : outcome :=
  if String.eqb k "shoulderAngle" then
    classify_abs v THRESHOLDS.shoulder_angle_significant THRESHOLDS.shoulder_angle_warning
  else if String.eqb k "torsoAngleFromVertical" then
    classify_abs v THRESHOLDS.torso_angle_significant THRESHOLDS.torso_angle_warning
  else if String.eqb k "spineHorizontalOffsetRatio" then
    classify_raw v THRESHOLDS.spine_offset_ratio_significant
      THRESHOLDS.spine_offset_ratio_warning
  else
    classify_raw v THRESHOLDS.head_forward_ratio_significant
      THRESHOLDS.head_forward_ratio_warning.

(** The recognized keys other than [k]. *)
Definition other_keys (k : string) : list string :=
  List.filter (fun k' => negb (String.eqb k' k)) assessor_order.

(** * Properties *)

(** ** The constants *)

(** The numbers written in [THRESHOLDS] are the binary64 values of the
    decimal literals of the source. *)
Lemma THRESHOLDS_literals :
  literal THRESHOLDS.shoulder_angle_warning 5
  /\ literal THRESHOLDS.shoulder_angle_significant 10
  /\ literal THRESHOLDS.head_forward_ratio_warning (1 # 10)
  /\ literal THRESHOLDS.head_forward_ratio_significant (15 # 100)
  /\ literal THRESHOLDS.torso_angle_warning 15
  /\ literal THRESHOLDS.torso_angle_significant 20
  /\ literal THRESHOLDS.spine_offset_ratio_warning (15 # 100)
  /\ literal THRESHOLDS.spine_offset_ratio_significant (20 # 100).
Proof.
  repeat split; try (vm_compute; reflexivity); vm_compute; discriminate.
Qed.

(** ** The comparisons *)

Lemma xgt_xle_trans (x y t : xnum) :
  xle x y = true -> xgt x t = true -> xgt y t = true.
Proof.
  destruct x as [|[]|p], y as [|[]|q], t as [|[]|r]; simpl; try congruence;
    repeat match goal with
           | |- context [(?a ?= ?b)%Q] => destruct (Qcompare_spec a b)
           end; try congruence; intros _ _; lra.
Qed.

Lemma py_abs_number (v : pyval) :
  is_number v = true -> exists a, py_abs v = Ok a /\ is_number a = true.
Proof.
  destruct v; try discriminate; intros _; eexists; split; reflexivity.
Qed.

Lemma py_abs_raises (v : pyval) :
  is_number v = false -> exists e, py_abs v = Raise e.
Proof. destruct v; try discriminate; intros _; eexists; reflexivity. Qed.

Lemma py_gt_number (v : pyval) (t : spec_float) :
  is_number v = true -> exists b, py_gt v (PFloat t) = Ok b.
Proof.
  unfold is_number, py_gt. destruct (num v); [|discriminate].
  intros _. simpl. eexists; reflexivity.
Qed.

Lemma py_gt_raises (v : pyval) (t : spec_float) :
  is_number v = false -> exists e, py_gt v (PFloat t) = Raise e.
Proof.
  unfold is_number, py_gt. destruct (num v); [discriminate|].
  intros _. eexists; reflexivity.
Qed.

Lemma grade_number (v : pyval) (sig warn : spec_float) :
  is_number v = true -> exists s, grade v sig warn = Ok s.
Proof.
  intros Hv. unfold grade.
  destruct (py_gt_number v sig Hv) as [[] ->]; simpl; [eexists; reflexivity|].
  destruct (py_gt_number v warn Hv) as [[] ->]; simpl; eexists; reflexivity.
Qed.

Lemma grade_raises (v : pyval) (sig warn : spec_float) :
  is_number v = false -> exists e, grade v sig warn = Raise e.
Proof.
  intros Hv. unfold grade.
  destruct (py_gt_raises v sig Hv) as [e ->]. eexists; reflexivity.
Qed.

(** ** Each block of the source grades its metric *)

Lemma py_bind_ext {A B : Type} (c c' : py A) (k k' : A -> py B) :
  c = c' -> (forall a, k a = k' a) -> py_bind c k = py_bind c' k'.
Proof. intros -> Hk. destruct c'; simpl; [apply Hk | reflexivity]. Qed.

Lemma stmt_bind_ext {A B : Type} (c c' : stmt A) (k k' : A -> stmt B) :
  (forall st, c st = c' st) -> (forall a st, k a st = k' a st) ->
  forall st, stmt_bind c k st = stmt_bind c' k' st.
Proof.
  intros Hc Hk st. unfold stmt_bind. rewrite Hc.
  destruct (c' st) as [[a|e] st']; [apply Hk | reflexivity].
Qed.

Lemma score_block_abs (score : Z) (vis : bool) (v : pyval) (sig warn : spec_float) :
  (if negb (is_None v) then
     let! abs_angle := py_abs v in
     let! s := py_gt abs_angle (PFloat sig) in
     if s then Ok (score - PENALTIES.significant)
     else
       let! w := py_gt abs_angle (PFloat warn) in
       if w then Ok (score - PENALTIES.warning) else Ok score
   else if negb vis then Ok (score - PENALTIES.missing_data_low)
   else Ok score)
  = charge vis (classify_abs v sig warn) score.
Proof.
  unfold charge, classify_abs, outcome_of, grade.
  destruct (is_None v); simpl; [reflexivity|].
  destruct (py_abs v) as [a|e]; simpl; [|reflexivity].
  destruct (py_gt a (PFloat sig)) as [[]|]; simpl; try reflexivity.
  destruct (py_gt a (PFloat warn)) as [[]|]; simpl; try reflexivity.
  f_equal. unfold severity_penalty. lia.
Qed.

Lemma score_block_raw (score : Z) (vis : bool) (v : pyval) (sig warn : spec_float) :
  (if negb (is_None v) then
     let! s := py_gt v (PFloat sig) in
     if s then Ok (score - PENALTIES.significant)
     else
       let! w := py_gt v (PFloat warn) in
       if w then Ok (score - PENALTIES.warning) else Ok score
   else if negb vis then Ok (score - PENALTIES.missing_data_low)
   else Ok score)
  = charge vis (classify_raw v sig warn) score.
Proof.
  unfold charge, classify_raw, outcome_of, grade.
  destruct (is_None v); simpl; [reflexivity|].
  destruct (py_gt v (PFloat sig)) as [[]|]; simpl; try reflexivity.
  destruct (py_gt v (PFloat warn)) as [[]|]; simpl; try reflexivity.
  f_equal. unfold severity_penalty. lia.
Qed.

(** The scorer, block by block, is the four charges in its order. *)
Lemma calculate_overall_score_eq (m : gmap string pyval) (i : list string) :
  calculate_overall_score m i =
  if insufficient_data m i then Ok None
  else
    let vis := scorer_visibility i in
    let! s1 := charge vis (shoulder_outcome m) 100 in
    let! s2 := charge vis (torso_outcome m) s1 in
    let! s3 := charge vis (spine_outcome m) s2 in
    let! s4 := charge vis (head_outcome m) s3 in
    Ok (Some (clamp (if vis then s4 - PENALTIES.visibility_issue else s4))).
Proof.
  unfold calculate_overall_score. fold (insufficient_data m i).
  destruct (insufficient_data m i); [reflexivity|].
  cbv zeta. fold (scorer_visibility i).
  apply py_bind_ext; [apply score_block_abs | intros s1].
  apply py_bind_ext; [apply score_block_abs | intros s2].
  apply py_bind_ext; [apply score_block_raw | intros s3].
  apply py_bind_ext; [apply score_block_raw | intros s4].
  reflexivity.
Qed.

Lemma report_block_abs (v : pyval) (sig warn : spec_float) (w : wording) (st : lists) :
  (if negb (is_None v) then
     do abs_angle <- eval (py_abs v);
     do s <- eval (py_gt abs_angle (PFloat sig));
     if s then
       parts_append (significant_phrase w) ;; recs_extend (significant_recs w)
     else
       do wn <- eval (py_gt abs_angle (PFloat warn));
       if wn then parts_append (warning_phrase w) ;; recs_append (warning_rec w)
       else pass
   else pass) st
  = report (classify_abs v sig warn) w st.
Proof.
  unfold report, classify_abs, outcome_of, grade, stmt_bind, eval.
  destruct (is_None v); simpl; [reflexivity|].
  destruct (py_abs v) as [a|e]; simpl; [|reflexivity].
  destruct (py_gt a (PFloat sig)) as [[]|]; simpl; try reflexivity.
  destruct (py_gt a (PFloat warn)) as [[]|]; reflexivity.
Qed.

Lemma report_block_raw (v : pyval) (sig warn : spec_float) (w : wording) (st : lists) :
  (if negb (is_None v) then
     do s <- eval (py_gt v (PFloat sig));
     if s then
       parts_append (significant_phrase w) ;; recs_extend (significant_recs w)
     else
       do wn <- eval (py_gt v (PFloat warn));
       if wn then parts_append (warning_phrase w) ;; recs_append (warning_rec w)
       else pass
   else pass) st
  = report (classify_raw v sig warn) w st.
Proof.
  unfold report, classify_raw, outcome_of, grade, stmt_bind, eval.
  destruct (is_None v); simpl; [reflexivity|].
  destruct (py_gt v (PFloat sig)) as [[]|]; simpl; try reflexivity.
  destruct (py_gt v (PFloat warn)) as [[]|]; reflexivity.
Qed.

(** The endpoint's analysis, block by block, is the four reports in its
    order (shoulder, spine, torso, head). *)
Lemma analyze_metrics_eq (m : gmap string pyval) (st : lists) :
  analyze_metrics m st =
  (report (shoulder_outcome m) shoulder_wording ;;
   report (spine_outcome m) spine_wording ;;
   report (torso_outcome m) torso_wording ;;
   report (head_outcome m) head_wording) st.
Proof.
  unfold analyze_metrics. cbv zeta. revert st.
  apply stmt_bind_ext;
    [intros st; apply (report_block_abs _ _ _ shoulder_wording) | intros _].
  apply stmt_bind_ext;
    [intros st; apply (report_block_raw _ _ _ spine_wording) | intros _].
  apply stmt_bind_ext;
    [intros st; apply (report_block_abs _ _ _ torso_wording) | intros _].
  intros st; apply (report_block_raw _ _ _ head_wording).
Qed.

Lemma generate_assessment_eq (m : gmap string pyval) :
  generate_assessment m =
  assess_outcomes (shoulder_outcome m) (spine_outcome m) (torso_outcome m) (head_outcome m).
Proof.
  unfold generate_assessment, assess_outcomes, try_except.
  rewrite analyze_metrics_eq. reflexivity.
Qed.

(** ** A metric faults exactly on a value that is neither null nor a number *)

Lemma classify_abs_fault (v : pyval) (sig warn : spec_float) :
  is_fault (classify_abs v sig warn) = faulty v.
Proof.
  unfold classify_abs, outcome_of, faulty, numeric_or_null.
  destruct (is_None v); [reflexivity|]. simpl.
  destruct (is_number v) eqn:Hv.
  - destruct (py_abs_number v Hv) as (a & -> & Ha). simpl.
    destruct (grade_number a sig warn Ha) as [s ->]. reflexivity.
  - destruct (py_abs_raises v Hv) as [e ->]. reflexivity.
Qed.

Lemma classify_raw_fault (v : pyval) (sig warn : spec_float) :
  is_fault (classify_raw v sig warn) = faulty v.
Proof.
  unfold classify_raw, outcome_of, faulty, numeric_or_null.
  destruct (is_None v); [reflexivity|]. simpl.
  destruct (is_number v) eqn:Hv.
  - destruct (grade_number v sig warn Hv) as [s ->]. reflexivity.
  - destruct (grade_raises v sig warn Hv) as [e ->]. reflexivity.
Qed.

Lemma shoulder_fault (m : gmap string pyval) :
  is_fault (shoulder_outcome m) = faulty (get m "shoulderAngle").
Proof. apply classify_abs_fault. Qed.

Lemma torso_fault (m : gmap string pyval) :
  is_fault (torso_outcome m) = faulty (get m "torsoAngleFromVertical").
Proof. apply classify_abs_fault. Qed.

Lemma spine_fault (m : gmap string pyval) :
  is_fault (spine_outcome m) = faulty (get m "spineHorizontalOffsetRatio").
Proof. apply classify_raw_fault. Qed.

Lemma head_fault (m : gmap string pyval) :
  is_fault (head_outcome m) = faulty (get m "headForwardRatio").
Proof. apply classify_raw_fault. Qed.

Lemma charge_ok (vis : bool) (o : outcome) (s : Z) :
  is_fault o = false -> exists s', charge vis o s = Ok s' /\ s - 22 <= s' <= s.
Proof.
  destruct o as [|e|[]]; simpl; try discriminate; intros _.
  - destruct vis; simpl; eexists; (split; [reflexivity|]);
      unfold PENALTIES.missing_data_low; lia.
  - eexists; split; [reflexivity|]. lia.
  - eexists; split; [reflexivity|]. unfold PENALTIES.warning. lia.
  - eexists; split; [reflexivity|]. unfold PENALTIES.significant. lia.
Qed.

(** Without a faulting metric the scorer returns. *)
Lemma scorer_returns (m : gmap string pyval) (i : list string) :
  is_fault (shoulder_outcome m) = false ->
  is_fault (torso_outcome m) = false ->
  is_fault (spine_outcome m) = false ->
  is_fault (head_outcome m) = false ->
  calculate_overall_score m i = Ok None /\ insufficient_data m i = true
  \/ exists z, calculate_overall_score m i = Ok (Some z)
               /\ insufficient_data m i = false.
Proof.
  intros H1 H2 H3 H4. rewrite calculate_overall_score_eq.
  destruct (insufficient_data m i); [left; split; reflexivity | right].
  cbv zeta.
  destruct (charge_ok (scorer_visibility i) _ 100 H1) as (s1 & -> & _). simpl.
  destruct (charge_ok (scorer_visibility i) _ s1 H2) as (s2 & -> & _). simpl.
  destruct (charge_ok (scorer_visibility i) _ s2 H3) as (s3 & -> & _). simpl.
  destruct (charge_ok (scorer_visibility i) _ s3 H4) as (s4 & -> & _). simpl.
  eexists; split; reflexivity.
Qed.

(** With a faulting metric the scorer raises, unless it has no metric at
    all to look at. *)
Lemma scorer_raises (m : gmap string pyval) (i : list string) :
  insufficient_data m i = false ->
  is_fault (shoulder_outcome m) || is_fault (torso_outcome m)
  || is_fault (spine_outcome m) || is_fault (head_outcome m) = true ->
  exists e, calculate_overall_score m i = Raise e.
Proof.
  intros Hi H. rewrite calculate_overall_score_eq, Hi. cbv zeta.
  destruct (shoulder_outcome m) as [|e1|s1]; simpl in *;
    try (eexists; reflexivity);
  destruct (torso_outcome m) as [|e2|s2]; simpl in *;
    try (eexists; reflexivity);
  destruct (spine_outcome m) as [|e3|s3]; simpl in *;
    try (eexists; reflexivity);
  destruct (head_outcome m) as [|e4|s4]; simpl in *;
    try (eexists; reflexivity); try discriminate;
  destruct (scorer_visibility i); simpl in *; try discriminate; eexists; reflexivity.
Qed.

(** No phrase at all means that every metric was absent or fine. *)
Lemma assess_outcomes_quiet (o1 o2 o3 o4 : outcome) :
  assessment_parts (assess_outcomes o1 o2 o3 o4) = [] ->
  is_quiet o1 && is_quiet o2 && is_quiet o3 && is_quiet o4 = true.
Proof.
  destruct o1 as [|?|[]], o2 as [|?|[]], o3 as [|?|[]], o4 as [|?|[]];
    vm_compute; congruence.
Qed.

Lemma assess_quiet_nil (o1 o2 o3 o4 : outcome) :
  is_quiet o1 && is_quiet o2 && is_quiet o3 && is_quiet o4 = true ->
  assess_outcomes o1 o2 o3 o4 = {| assessment_parts := []; recommendations := [] |}.
Proof.
  destruct o1 as [|?|[]], o2 as [|?|[]], o3 as [|?|[]], o4 as [|?|[]];
    simpl; try discriminate; reflexivity.
Qed.

Lemma is_quiet_no_fault (o : outcome) : is_quiet o = true -> is_fault o = false.
Proof. destruct o as [|?|[]]; simpl; congruence. Qed.

(** ** The endpoint composes its response from the score and the two lists *)

Lemma analyze_posture_body_eq (data : PostureMetricsInput.t) :
  analyze_posture_body data =
  let! final_score := calculate_overall_score (metrics_of data) (issues_of data) in
  Ok (compose final_score (generate_assessment (metrics_of data)) (issues_of data)).
Proof.
  unfold analyze_posture_body. cbv zeta.
  apply py_bind_ext; [reflexivity | intros final_score].
  unfold compose, show_extras, looks_great, only_visibility_or_waiting,
    compiled_assessment.
  fold (composer_visibility (issues_of data)).
  fold (composer_waiting (issues_of data)).
  destruct (score_at_least_85 final_score) eqn:Hs; unfold score_at_least_85 in Hs;
    rewrite Hs;
    destruct (bool_decide (assessment_parts (generate_assessment (metrics_of data)) = []));
    destruct (composer_visibility (issues_of data));
    destruct (composer_waiting (issues_of data)); reflexivity.
Qed.

Lemma endpoint_returns (data : PostureMetricsInput.t) (final_score : option Z) :
  calculate_overall_score (metrics_of data) (issues_of data) = Ok final_score ->
  analyze_posture_endpoint data =
  Ok (compose final_score (generate_assessment (metrics_of data)) (issues_of data)).
Proof.
  intros H. unfold analyze_posture_endpoint.
  rewrite analyze_posture_body_eq, H. reflexivity.
Qed.

Lemma endpoint_returned (data : PostureMetricsInput.t) (fb : PostureFeedback.t) :
  analyze_posture_endpoint data = Ok fb ->
  exists final_score,
    calculate_overall_score (metrics_of data) (issues_of data) = Ok final_score
    /\ fb = compose final_score (generate_assessment (metrics_of data)) (issues_of data).
Proof.
  unfold analyze_posture_endpoint. rewrite analyze_posture_body_eq.
  destruct (calculate_overall_score (metrics_of data) (issues_of data)) as [sc|e];
    simpl; [|discriminate].
  intros [= <-]. exists sc. split; reflexivity.
Qed.

Lemma endpoint_raises (data : PostureMetricsInput.t) (e : pyexn) :
  calculate_overall_score (metrics_of data) (issues_of data) = Raise e ->
  analyze_posture_endpoint data =
  Raise {| status_code := 500;
           detail := "Internal error during analysis: " ++ exn_str e |}.
Proof.
  intros H. unfold analyze_posture_endpoint.
  rewrite analyze_posture_body_eq, H. reflexivity.
Qed.

(** When the endpoint has no phrase, no metric faulted, so the scorer
    returns and so does the endpoint. *)
Lemma no_phrase_returns (data : PostureMetricsInput.t) :
  assessment_parts (generate_assessment (metrics_of data)) = [] ->
  exists final_score,
    calculate_overall_score (metrics_of data) (issues_of data) = Ok final_score.
Proof.
  rewrite generate_assessment_eq. intros H.
  apply assess_outcomes_quiet in H.
  apply andb_prop in H as [H H4]. apply andb_prop in H as [H H3].
  apply andb_prop in H as [H1 H2].
  apply is_quiet_no_fault in H1, H2, H3, H4.
  destruct (scorer_returns (metrics_of data) (issues_of data) H1 H3 H2 H4)
    as [[-> _] | (z & -> & _)]; eexists; reflexivity.
Qed.

(** ** [dict.fromkeys]: first occurrences, in order *)

Lemma dict_fromkeys_snoc (l : list string) (x : string) :
  dict_fromkeys (l ++ [x]) = fromkeys_insert (dict_fromkeys l) x.
Proof. unfold dict_fromkeys. rewrite fold_left_app. reflexivity. Qed.

Lemma dict_fromkeys_elem (l : list string) (x : string) :
  x ∈ dict_fromkeys l <-> x ∈ l.
Proof.
  revert x. induction l as [|z l IH] using rev_ind; intros x.
  - reflexivity.
  - rewrite dict_fromkeys_snoc. unfold fromkeys_insert.
    case_bool_decide as Hz; rewrite !elem_of_app, ?list_elem_of_singleton, ?IH.
    + rewrite IH in Hz. split; [tauto | intros [?| ->]; tauto].
    + reflexivity.
Qed.

Lemma dict_fromkeys_NoDup (l : list string) : NoDup (dict_fromkeys l).
Proof.
  induction l as [|z l IH] using rev_ind.
  - constructor.
  - rewrite dict_fromkeys_snoc. unfold fromkeys_insert.
    case_bool_decide as Hz; [exact IH|].
    apply NoDup_app. split; [exact IH|]. split; [|apply NoDup_singleton].
    intros y Hy ->%list_elem_of_singleton. contradiction.
Qed.

Lemma dict_fromkeys_id (l : list string) : NoDup l -> dict_fromkeys l = l.
Proof.
  induction l as [|z l IH] using rev_ind; [reflexivity|].
  intros [Hl [Hz _]]%NoDup_app. rewrite dict_fromkeys_snoc, (IH Hl).
  unfold fromkeys_insert. case_bool_decide as Hin; [|reflexivity].
  exfalso. apply (Hz z Hin). apply list_elem_of_singleton. reflexivity.
Qed.

Lemma dict_fromkeys_order (l : list string) :
  first_occurrence_order l (dict_fromkeys l).
Proof.
  induction l as [|z l IH] using rev_ind; intros d1 x d2 y d3 Hd.
  - destruct d1; discriminate.
  - rewrite dict_fromkeys_snoc in Hd. unfold fromkeys_insert in Hd.
    case_bool_decide as Hz.
    + destruct (IH _ _ _ _ _ Hd) as (l1 & l2 & -> & Hy & Hx).
      exists l1, (l2 ++ [z])%list. rewrite <- app_assoc. auto.
    + induction d3 as [|w d3 _] using rev_ind.
      * replace (d1 ++ x :: d2 ++ [y])%list with ((d1 ++ x :: d2) ++ [y])%list in Hd
          by (rewrite <- app_assoc; reflexivity).
        apply app_inj_tail in Hd as [Hd <-].
        exists l, []. split; [reflexivity|].
        split; [rewrite <- dict_fromkeys_elem; exact Hz|].
        rewrite <- dict_fromkeys_elem, Hd, elem_of_app, elem_of_cons. auto.
      * replace (d1 ++ x :: d2 ++ y :: d3 ++ [w])%list
          with ((d1 ++ x :: d2 ++ y :: d3) ++ [w])%list in Hd
          by (rewrite <- !app_assoc; simpl; rewrite <- app_assoc; reflexivity).
        apply app_inj_tail in Hd as [Hd <-].
        destruct (IH _ _ _ _ _ Hd) as (l1 & l2 & -> & Hy & Hx).
        exists l1, (l2 ++ [z])%list. rewrite <- app_assoc. auto.
Qed.

(** ** The insufficient-data rule *)

Lemma insufficient_data_spec (m : gmap string pyval) (i : list string) :
  insufficient_data m i = true <->
  m = ∅ /\ Forall (fun s => mentions "visibility" s \/ mentions "waiting" s) i.
Proof.
  unfold insufficient_data, mentions.
  rewrite andb_true_iff, bool_decide_eq_true, orb_true_iff, bool_decide_eq_true.
  rewrite forallb_forall, Forall_forall.
  split; intros [Hm Hi]; (split; [exact Hm|]).
  - destruct Hi as [-> | Hi]; [intros s Hs; inversion Hs|].
    intros s Hs. apply orb_true_iff, Hi, list_elem_of_In, Hs.
  - right. intros s Hs. apply orb_true_iff, Hi, list_elem_of_In, Hs.
Qed.

Lemma MetricSet_no_fault (m : gmap string pyval) :
  MetricSet m = true ->
  is_fault (shoulder_outcome m) = false /\ is_fault (torso_outcome m) = false
  /\ is_fault (spine_outcome m) = false /\ is_fault (head_outcome m) = false.
Proof.
  unfold MetricSet, assessor_order. simpl. rewrite !andb_true_iff.
  intros (H1 & H2 & H3 & H4 & _).
  rewrite shoulder_fault, torso_fault, spine_fault, head_fault.
  unfold faulty. rewrite H1, H2, H3, H4. auto.
Qed.

(** A metric mapping outside the spec's MetricSet has a recognized metric
    on which the grading raises. *)
Lemma not_MetricSet_fault (m : gmap string pyval) :
  MetricSet m = false ->
  is_fault (shoulder_outcome m) || is_fault (torso_outcome m)
  || is_fault (spine_outcome m) || is_fault (head_outcome m) = true.
Proof.
  rewrite shoulder_fault, torso_fault, spine_fault, head_fault.
  unfold MetricSet, assessor_order, faulty. cbn [forallb].
  destruct (numeric_or_null (get m "shoulderAngle")),
    (numeric_or_null (get m "spineHorizontalOffsetRatio")),
    (numeric_or_null (get m "torsoAngleFromVertical")),
    (numeric_or_null (get m "headForwardRatio")); simpl; congruence.
Qed.

(** C2 (amended). The scorer returns null exactly when the metric mapping
    is empty and every issue string mentions "visibility" or "waiting"
    (in any letter case); in particular it returns null for no metrics
    and no issues; and it returns an integer exactly on the other inputs
    whose recognized metrics are all absent, null or numbers. *)
Theorem C2_null_exactly_when_insufficient (m : gmap string pyval) (i : list string) :
  (calculate_overall_score m i = Ok None <->
   m = ∅ /\ Forall (fun s => mentions "visibility" s \/ mentions "waiting" s) i)
  /\ calculate_overall_score ∅ [] = Ok None
  /\ ((exists z : Z, calculate_overall_score m i = Ok (Some z)) <->
      MetricSet m = true
      /\ ~ (m = ∅ /\ Forall (fun s => mentions "visibility" s \/ mentions "waiting" s) i)).
Proof.
  rewrite <- insufficient_data_spec. split; [|split].
  - rewrite calculate_overall_score_eq.
    destruct (insufficient_data m i); [split; reflexivity|].
    split; [|discriminate]. cbv zeta.
    destruct (charge _ (shoulder_outcome m) _); simpl; [|discriminate].
    destruct (charge _ (torso_outcome m) _); simpl; [|discriminate].
    destruct (charge _ (spine_outcome m) _); simpl; [|discriminate].
    destruct (charge _ (head_outcome m) _); simpl; discriminate.
  - reflexivity.
  - split.
    + intros [z Hz].
      assert (Hi : insufficient_data m i = false).
      { destruct (insufficient_data m i) eqn:Hi; [|reflexivity].
        rewrite calculate_overall_score_eq, Hi in Hz. discriminate Hz. }
      split; [|rewrite Hi; discriminate].
      destruct (MetricSet m) eqn:Hm; [reflexivity|].
      destruct (scorer_raises m i Hi (not_MetricSet_fault m Hm)) as [e He].
      rewrite He in Hz. discriminate Hz.
    + intros [Hm Hi]. destruct (MetricSet_no_fault m Hm) as (H1 & H2 & H3 & H4).
      destruct (scorer_returns m i H1 H2 H3 H4) as [[_ Hin] | (z & Hz & _)].
      * contradiction.
      * exists z. exact Hz.
Qed.

Lemma C2_witness :
  calculate_overall_score ∅ ["Low VISIBILITY"; "Waiting For Pose"] = Ok None
  /\ exists z : Z,
       calculate_overall_score {[ "headForwardRatio" := PInt 1 ]} ["WAITING for pose"]
       = Ok (Some z).
Proof.
  split.
  - apply (proj1 (C2_null_exactly_when_insufficient
                    ∅ ["Low VISIBILITY"; "Waiting For Pose"])).
    split; [reflexivity|].
    repeat constructor; vm_compute; reflexivity.
  - apply (proj2 (proj2 (C2_null_exactly_when_insufficient
                           {[ "headForwardRatio" := PInt 1 ]} ["WAITING for pose"]))).
    split; [reflexivity|].
    intros [H _].
    apply (f_equal (fun m : gmap string pyval => m !! "headForwardRatio")) in H.
    vm_compute in H. discriminate.
Defined.

(** C2 (as stated) fails: with the string "left" under shoulderAngle and
    no issue, the mapping is not empty, so this is one of the other
    cases, yet the scorer raises the [TypeError] of [abs] (line 82) and
    returns no integer. *)
Lemma C2_counterexample :
  ~ (({[ "shoulderAngle" := PStr "left" ]} : gmap string pyval) = ∅
     /\ Forall (fun s => mentions "visibility" s \/ mentions "waiting" s) [])
  /\ calculate_overall_score {[ "shoulderAngle" := PStr "left" ]} []
     = Raise (TypeError "bad operand type for abs(): 'str'")
  /\ ~ (exists z : Z,
          calculate_overall_score {[ "shoulderAngle" := PStr "left" ]} [] = Ok (Some z))
  /\ calculate_overall_score {[ "shoulderAngle" := PStr "left" ]} [] <> Ok None.
Proof.
  assert (H : calculate_overall_score {[ "shoulderAngle" := PStr "left" ]} []
              = Raise (TypeError "bad operand type for abs(): 'str'"))
    by (vm_compute; reflexivity).
  split; [|split; [exact H|split]].
  - intros [He _].
    apply (f_equal (fun m : gmap string pyval => m !! "shoulderAngle")) in He.
    vm_compute in He. discriminate.
  - intros [z Hz]. rewrite H in Hz. discriminate Hz.
  - rewrite H. discriminate.
Qed.

(** ** The worked scenario *)

(** C3. For metrics = {torsoAngleFromVertical: 25}, the three other
    metrics absent and no issue, the score is 63 = 100 - 22 - 3*5, the
    only phrase is "Significant slouch or backward lean." and the
    response carries exactly three recommendations (the same holds when
    25 is sent as the float 25.0). *)
Theorem C3_torso_25_scenario :
  forall v, v = PInt 25 \/ v = PFloat float_25 ->
  let m : gmap string pyval := {[ "torsoAngleFromVertical" := v ]} in
  calculate_overall_score m [] = Ok (Some 63)
  /\ 63 = 100 - PENALTIES.significant - 3 * PENALTIES.missing_data_low
  /\ assessment_parts (generate_assessment m) = ["Significant slouch or backward lean."]
  /\ exists fb,
       analyze_posture_endpoint (request m []) = Ok fb
       /\ PostureFeedback.score fb = Some 63
       /\ PostureFeedback.assessment fb = Some "Significant slouch or backward lean."
       /\ PostureFeedback.recommendations fb =
            ["Sit tall, chest up."; "Use lumbar support actively.";
             "Stretch chest/back during breaks."]
       /\ length (PostureFeedback.recommendations fb) = 3%nat.
Proof.
  intros v [-> | ->]; cbv zeta;
    (split; [vm_compute; reflexivity|]); (split; [reflexivity|]);
    (split; [vm_compute; reflexivity|]);
    eexists; (split; [vm_compute; reflexivity|]); simpl; auto.
Qed.

Lemma C3_witness :
  calculate_overall_score {[ "torsoAngleFromVertical" := PInt 25 ]} [] = Ok (Some 63).
Proof.
  apply (C3_torso_25_scenario (PInt 25)). left. reflexivity.
Defined.

(** ** The range of the score *)

Lemma clamp_range (s : Z) : 0 <= clamp s <= 100.
Proof. unfold clamp, py_round. lia. Qed.

(** C4. Whenever the scorer returns a non-null score, the score is
    clamp(round(accumulated value), 0, 100) and so lies in [0, 100]; the
    same holds for the score of every response of the endpoint. *)
Theorem C4_score_in_range :
  (forall m i z, calculate_overall_score m i = Ok (Some z) ->
     (exists acc, z = Z.max 0 (Z.min 100 (py_round acc))) /\ 0 <= z <= 100)
  /\ (forall data fb z, analyze_posture_endpoint data = Ok fb ->
        PostureFeedback.score fb = Some z -> 0 <= z <= 100).
Proof.
  assert (Hs : forall m i z, calculate_overall_score m i = Ok (Some z) ->
            exists acc, z = clamp acc).
  { intros m i z. rewrite calculate_overall_score_eq.
    destruct (insufficient_data m i); [discriminate|]. cbv zeta.
    destruct (charge _ (shoulder_outcome m) _); simpl; [|discriminate].
    destruct (charge _ (torso_outcome m) _); simpl; [|discriminate].
    destruct (charge _ (spine_outcome m) _); simpl; [|discriminate].
    destruct (charge _ (head_outcome m) _); simpl; [|discriminate].
    intros [= <-]. eexists; reflexivity. }
  split.
  - intros m i z H. destruct (Hs m i z H) as [acc ->].
    split; [exists acc; reflexivity | apply clamp_range].
  - intros data fb z Hfb Hz.
    destruct (endpoint_returned data fb Hfb) as (sc & Hsc & ->).
    simpl in Hz. subst sc. destruct (Hs _ _ _ Hsc) as [acc ->]. apply clamp_range.
Qed.

Lemma C4_witness :
  calculate_overall_score
    {[ "shoulderAngle" := PInt 90 ]} ["visibility: low light"] = Ok (Some 72)
  /\ 0 <= 72 <= 100.
Proof.
  assert (H : calculate_overall_score
                {[ "shoulderAngle" := PInt 90 ]} ["visibility: low light"]
              = Ok (Some 72)) by (vm_compute; reflexivity).
  split; [exact H|].
  exact (proj2 (proj1 C4_score_in_range _ _ _ H)).
Defined.

(** ** Responses that carry only visibility or waiting issues *)

(** C5. When some issue string mentions "visibility" or "unclear", or some
    issue string mentions "waiting", and no phrase was produced, the
    endpoint returns a response whose recommendations are empty, whose
    maintenance tips are empty and whose benefits are null, whatever the
    score is. *)
Theorem C5_visibility_or_waiting_only_override (data : PostureMetricsInput.t) :
  composer_visibility (issues_of data) || composer_waiting (issues_of data) = true ->
  assessment_parts (generate_assessment (metrics_of data)) = [] ->
  exists fb,
    analyze_posture_endpoint data = Ok fb
    /\ PostureFeedback.recommendations fb = []
    /\ PostureFeedback.maintenance_tips fb = []
    /\ PostureFeedback.benefits fb = None.
Proof.
  intros Hvw Hparts.
  destruct (no_phrase_returns data Hparts) as [sc Hsc].
  eexists. split; [apply (endpoint_returns data sc Hsc)|].
  unfold compose, show_extras, only_visibility_or_waiting. simpl.
  rewrite Hvw, Hparts. simpl. auto.
Qed.

Lemma C5_witness :
  exists fb,
    analyze_posture_endpoint
      (request {[ "shoulderAngle" := PInt 1; "torsoAngleFromVertical" := PInt 1;
                  "spineHorizontalOffsetRatio" := PInt 0; "headForwardRatio" := PInt 0 ]}
               ["Waiting for pose"]) = Ok fb
    /\ PostureFeedback.score fb = Some 100
    /\ PostureFeedback.recommendations fb = []
    /\ PostureFeedback.maintenance_tips fb = []
    /\ PostureFeedback.benefits fb = None.
Proof.
  destruct (C5_visibility_or_waiting_only_override
              (request {[ "shoulderAngle" := PInt 1; "torsoAngleFromVertical" := PInt 1;
                          "spineHorizontalOffsetRatio" := PInt 0;
                          "headForwardRatio" := PInt 0 ]}
                       ["Waiting for pose"]))
    as (fb & Hfb & Hrest); [vm_compute; reflexivity | vm_compute; reflexivity |].
  exists fb. split; [exact Hfb|]. split; [|exact Hrest].
  vm_compute in Hfb. injection Hfb as <-. reflexivity.
Defined.

(** C6. When no phrase was produced and some issue string mentions
    "visibility" or "unclear", the assessment is the visibility sentence,
    also when another issue string mentions "waiting". *)
Theorem C6_visibility_before_waiting (data : PostureMetricsInput.t) :
  composer_visibility (issues_of data) = true ->
  assessment_parts (generate_assessment (metrics_of data)) = [] ->
  exists fb,
    analyze_posture_endpoint data = Ok fb
    /\ PostureFeedback.assessment fb =
       Some "Could not analyze clearly due to visibility. Adjust position/lighting.".
Proof.
  intros Hv Hparts.
  destruct (no_phrase_returns data Hparts) as [sc Hsc].
  eexists. split; [apply (endpoint_returns data sc Hsc)|].
  unfold compose, looks_great, compiled_assessment. simpl.
  rewrite Hv, Hparts. simpl. rewrite andb_false_r. simpl.
  destruct (composer_waiting (issues_of data)); reflexivity.
Qed.

Lemma C6_witness :
  composer_waiting ["waiting for pose"; "Unclear frame"] = true
  /\ exists fb,
       analyze_posture_endpoint (request ∅ ["waiting for pose"; "Unclear frame"]) = Ok fb
       /\ PostureFeedback.assessment fb =
          Some "Could not analyze clearly due to visibility. Adjust position/lighting.".
Proof.
  split; [reflexivity|].
  apply (C6_visibility_before_waiting (request ∅ ["waiting for pose"; "Unclear frame"]));
    vm_compute; reflexivity.
Defined.

(** ** Extras *)

(** C7. In every response, the maintenance tips and the benefits come
    together: either the tips are the fixed list of five entries and the
    benefits are the benefits string, or the tips are empty and the
    benefits are null. *)
Theorem C7_extras_atomic (data : PostureMetricsInput.t) (fb : PostureFeedback.t) :
  analyze_posture_endpoint data = Ok fb ->
  length maintenance_tips = 5%nat
  /\ (PostureFeedback.maintenance_tips fb = maintenance_tips
      /\ PostureFeedback.benefits fb = Some benefits
      \/ PostureFeedback.maintenance_tips fb = []
         /\ PostureFeedback.benefits fb = None).
Proof.
  intros Hfb. split; [reflexivity|].
  destruct (endpoint_returned data fb Hfb) as (sc & _ & ->). simpl.
  destruct (show_extras _ _ _); [left | right]; split; reflexivity.
Qed.

Lemma C7_witness :
  exists fb,
    analyze_posture_endpoint (request {[ "shoulderAngle" := PInt 7 ]} []) = Ok fb
    /\ PostureFeedback.maintenance_tips fb = maintenance_tips
    /\ PostureFeedback.benefits fb = Some benefits.
Proof.
  eexists. split; [vm_compute; reflexivity|].
  match goal with
  | |- PostureFeedback.maintenance_tips ?fb = _ /\ _ =>
      destruct (C7_extras_atomic (request {[ "shoulderAngle" := PInt 7 ]} []) fb)
        as [_ [H | [H _]]]; [vm_compute; reflexivity | exact H | discriminate H]
  end.
Defined.

(** ** Recommendations *)

(** The recommendations of the four wordings are pairwise different and
    none is empty, so the lists the endpoint builds never hold a
    duplicate to begin with. *)
Lemma assess_outcomes_recs (o1 o2 o3 o4 : outcome) :
  let recs := recommendations (assess_outcomes o1 o2 o3 o4) in
  NoDup recs /\ List.filter (fun rec => negb (String.eqb rec "")) recs = recs.
Proof.
  destruct o1 as [|?|[]], o2 as [|?|[]], o3 as [|?|[]], o4 as [|?|[]];
    (split; [apply (bool_decide_unpack _); vm_compute; exact I
            | vm_compute; reflexivity]).
Qed.

(** C8. The recommendations of every response hold no duplicate. They are
    the recommendations generated by the endpoint, de-duplicated in the
    order of their first occurrences ([dict.fromkeys]), unless the
    visibility/waiting-only override, which comes after the
    de-duplication, has set them to the empty list. *)
Theorem C8_recommendations_unique (data : PostureMetricsInput.t) (fb : PostureFeedback.t) :
  analyze_posture_endpoint data = Ok fb ->
  let st := generate_assessment (metrics_of data) in
  let generated := List.filter (fun rec => negb (String.eqb rec "")) (recommendations st) in
  NoDup (PostureFeedback.recommendations fb)
  /\ PostureFeedback.recommendations fb =
     (if only_visibility_or_waiting st (issues_of data) then []
      else dict_fromkeys generated)
  /\ NoDup (dict_fromkeys generated)
  /\ (forall x, x ∈ dict_fromkeys generated <-> x ∈ generated)
  /\ first_occurrence_order generated (dict_fromkeys generated)
  /\ generated = recommendations st.
Proof.
  intros Hfb st generated.
  destruct (endpoint_returned data fb Hfb) as (sc & _ & ->). simpl.
  fold st. fold generated.
  split; [|split; [reflexivity|]].
  - destruct (only_visibility_or_waiting st (issues_of data));
      [constructor | apply dict_fromkeys_NoDup].
  - split; [apply dict_fromkeys_NoDup|].
    split; [intros x; apply dict_fromkeys_elem|].
    split; [apply dict_fromkeys_order|].
    subst generated st. rewrite generate_assessment_eq.
    apply assess_outcomes_recs.
Qed.

Lemma C8_witness :
  exists fb,
    analyze_posture_endpoint
      (request {[ "shoulderAngle" := PInt (-30); "headForwardRatio" := PInt 1 ]} []) = Ok fb
    /\ NoDup (PostureFeedback.recommendations fb)
    /\ length (PostureFeedback.recommendations fb) = 4%nat.
Proof.
  eexists. split; [vm_compute; reflexivity|].
  split; [|reflexivity].
  match goal with
  | |- NoDup (PostureFeedback.recommendations ?fb) =>
      apply (C8_recommendations_unique
               (request {[ "shoulderAngle" := PInt (-30); "headForwardRatio" := PInt 1 ]} [])
               fb)
  end.
  vm_compute; reflexivity.
Defined.

(** ** Monotonicity in the shoulder angle *)

Lemma grade_monotone (x y : pyval) (sig warn : spec_float) :
  py_le x y = Ok true ->
  exists sx sy, grade x sig warn = Ok sx /\ grade y sig warn = Ok sy
                /\ severity_penalty sx <= severity_penalty sy.
Proof.
  unfold py_le, grade, py_gt.
  destruct (num x) as [a|], (num y) as [b|]; try discriminate.
  intros [= Hle]. simpl.
  pose proof (xgt_xle_trans a b (SF2X sig) Hle) as Hsig.
  pose proof (xgt_xle_trans a b (SF2X warn) Hle) as Hwarn.
  unfold PENALTIES.warning, PENALTIES.significant.
  destruct (xgt a (SF2X sig)); simpl.
  - rewrite Hsig by reflexivity. simpl. do 2 eexists. repeat split. simpl. lia.
  - destruct (xgt a (SF2X warn)); simpl.
    + rewrite Hwarn by reflexivity.
      destruct (xgt b (SF2X sig)); simpl; do 2 eexists; repeat split; simpl;
        unfold PENALTIES.warning, PENALTIES.significant; lia.
    + destruct (xgt b (SF2X sig)); simpl;
        [|destruct (xgt b (SF2X warn)); simpl]; do 2 eexists; repeat split; simpl;
        unfold PENALTIES.warning, PENALTIES.significant; lia.
Qed.

Lemma get_insert_eq (m : gmap string pyval) (k : string) (v : pyval) :
  get (<[k := v]> m) k = v.
Proof. unfold get. rewrite lookup_insert_eq. reflexivity. Qed.

Lemma get_insert_ne (m : gmap string pyval) (k k' : string) (v : pyval) :
  k <> k' -> get (<[k := v]> m) k' = get m k'.
Proof. intros H. unfold get. rewrite lookup_insert_ne by exact H. reflexivity. Qed.

Lemma insufficient_data_insert (m : gmap string pyval) (k : string) (v : pyval)
    (i : list string) :
  insufficient_data (<[k := v]> m) i = false.
Proof.
  unfold insufficient_data. rewrite bool_decide_eq_false_2; [reflexivity|].
  apply insert_non_empty.
Qed.

Lemma charge_shift (vis : bool) (o : outcome) :
  is_fault o = false -> exists c, forall s, charge vis o s = Ok (s - c).
Proof.
  destruct o as [|e|sv]; simpl; try discriminate; intros _.
  - destruct vis; simpl; [exists 0 | exists PENALTIES.missing_data_low];
      intros s; f_equal; lia.
  - exists (severity_penalty sv). reflexivity.
Qed.

Lemma classify_abs_measured (a x : pyval) (s : severity) (sig warn : spec_float) :
  py_abs a = Ok x -> grade x sig warn = Ok s -> classify_abs a sig warn = Measured s.
Proof.
  intros Hx Hs. unfold classify_abs, outcome_of. rewrite Hx. simpl. rewrite Hs.
  destruct a; try reflexivity; discriminate.
Qed.

(** C9. With the other metrics and the issue list fixed (the other three
    metrics being null or numbers, so that the scorer returns), a shoulder
    angle of larger absolute value never gives a larger score:
    if abs(a1) <= abs(a2) then both scores are integers and
    score(shoulderAngle := a2) <= score(shoulderAngle := a1). *)
Theorem C9_shoulder_monotone (m : gmap string pyval) (i : list string) (a1 a2 : pyval) :
  forallb (fun k => numeric_or_null (get m k))
    ["torsoAngleFromVertical"; "spineHorizontalOffsetRatio"; "headForwardRatio"] = true ->
  (let! x := py_abs a1 in let! y := py_abs a2 in py_le x y) = Ok true ->
  exists s1 s2,
    calculate_overall_score (<["shoulderAngle" := a1]> m) i = Ok (Some s1)
    /\ calculate_overall_score (<["shoulderAngle" := a2]> m) i = Ok (Some s2)
    /\ s2 <= s1.
Proof.
  intros Hm Hle. simpl in Hm. rewrite !andb_true_iff in Hm.
  destruct Hm as (Ht & Hs & Hh & _).
  destruct (py_abs a1) as [x|] eqn:Hx; [|discriminate].
  destruct (py_abs a2) as [y|] eqn:Hy; [|discriminate].
  simpl in Hle.
  destruct (grade_monotone x y THRESHOLDS.shoulder_angle_significant
              THRESHOLDS.shoulder_angle_warning Hle) as (sx & sy & Hsx & Hsy & Hp).
  rewrite !calculate_overall_score_eq, !insufficient_data_insert. cbv zeta.
  unfold shoulder_outcome, torso_outcome, spine_outcome, head_outcome.
  rewrite !get_insert_eq, !get_insert_ne by discriminate.
  rewrite (classify_abs_measured a1 x sx _ _ Hx Hsx).
  rewrite (classify_abs_measured a2 y sy _ _ Hy Hsy). simpl.
  assert (Ft : is_fault (classify_abs (get m "torsoAngleFromVertical")
                THRESHOLDS.torso_angle_significant THRESHOLDS.torso_angle_warning) = false)
    by (rewrite classify_abs_fault; unfold faulty; rewrite Ht; reflexivity).
  assert (Fs : is_fault (classify_raw (get m "spineHorizontalOffsetRatio")
                THRESHOLDS.spine_offset_ratio_significant
                THRESHOLDS.spine_offset_ratio_warning) = false)
    by (rewrite classify_raw_fault; unfold faulty; rewrite Hs; reflexivity).
  assert (Fh : is_fault (classify_raw (get m "headForwardRatio")
                THRESHOLDS.head_forward_ratio_significant
                THRESHOLDS.head_forward_ratio_warning) = false)
    by (rewrite classify_raw_fault; unfold faulty; rewrite Hh; reflexivity).
  destruct (charge_shift (scorer_visibility i) _ Ft) as [ct Hct].
  destruct (charge_shift (scorer_visibility i) _ Fs) as [cs Hcs].
  destruct (charge_shift (scorer_visibility i) _ Fh) as [ch Hch].
  rewrite !Hct. simpl. rewrite !Hcs. simpl. rewrite !Hch. simpl.
  do 2 eexists. split; [reflexivity|]. split; [reflexivity|].
  unfold clamp, py_round. destruct (scorer_visibility i); lia.
Qed.

Lemma C9_witness :
  exists s1 s2,
    calculate_overall_score (<["shoulderAngle" := PInt 3]> ∅) [] = Ok (Some s1)
    /\ calculate_overall_score (<["shoulderAngle" := PInt (-12)]> ∅) [] = Ok (Some s2)
    /\ s2 <= s1.
Proof.
  apply (C9_shoulder_monotone ∅ [] (PInt 3) (PInt (-12))); reflexivity.
Defined.

(** ** Null metrics *)

Lemma is_None_eq (v : pyval) : is_None v = true -> v = PNone.
Proof. destruct v; try discriminate; reflexivity. Qed.

(** C10. The insufficient-data test looks at the mapping being empty, not
    at its values: for a non-empty mapping in which every recognized
    metric is null (or absent) and an empty issue list, the score is
    80 = 100 - 4*5, the assessment is "Posture analysis indicates good
    alignment." and the extras are left out. *)
Theorem C10_all_null_scores_80 (m : gmap string pyval) :
  m <> ∅ ->
  forallb (fun k => is_None (get m k)) assessor_order = true ->
  calculate_overall_score m [] = Ok (Some 80)
  /\ 80 = 100 - 4 * PENALTIES.missing_data_low
  /\ analyze_posture_endpoint (request m []) =
     Ok {| PostureFeedback.score := Some 80;
           PostureFeedback.assessment := Some "Posture analysis indicates good alignment.";
           PostureFeedback.recommendations := [];
           PostureFeedback.maintenance_tips := [];
           PostureFeedback.benefits := None |}.
Proof.
  intros Hne Hnull. simpl in Hnull. rewrite !andb_true_iff in Hnull.
  destruct Hnull as (H1 & H2 & H3 & H4 & _).
  apply is_None_eq in H1, H2, H3, H4.
  assert (Hscore : calculate_overall_score m [] = Ok (Some 80)).
  { rewrite calculate_overall_score_eq. unfold insufficient_data.
    rewrite bool_decide_eq_false_2 by exact Hne. simpl.
    unfold shoulder_outcome, torso_outcome, spine_outcome, head_outcome.
    rewrite H1, H2, H3, H4. reflexivity. }
  split; [exact Hscore|]. split; [reflexivity|].
  rewrite (endpoint_returns (request m []) (Some 80) Hscore).
  change (metrics_of (request m [])) with m.
  change (issues_of (request m [])) with (@nil string).
  rewrite generate_assessment_eq.
  unfold shoulder_outcome, torso_outcome, spine_outcome, head_outcome.
  rewrite H1, H2, H3, H4. reflexivity.
Qed.

Lemma C10_witness :
  calculate_overall_score
    {[ "shoulderAngle" := PNone; "torsoAngleFromVertical" := PNone;
       "spineHorizontalOffsetRatio" := PNone; "headForwardRatio" := PNone ]} []
  = Ok (Some 80).
Proof.
  apply (C10_all_null_scores_80
    {[ "shoulderAngle" := PNone; "torsoAngleFromVertical" := PNone;
       "spineHorizontalOffsetRatio" := PNone; "headForwardRatio" := PNone ]}).
  - intros H. apply (f_equal (fun m : gmap string pyval => m !! "shoulderAngle")) in H.
    vm_compute in H. discriminate.
  - reflexivity.
Defined.

(** ** A metric whose evaluation raises *)

Lemma get_delete_eq (m : gmap string pyval) (k : string) :
  get (delete k m) k = PNone.
Proof. unfold get. rewrite lookup_delete_eq. reflexivity. Qed.

Lemma get_delete_ne (m : gmap string pyval) (k k' : string) :
  k <> k' -> get (delete k m) k' = get m k'.
Proof. intros H. unfold get. rewrite lookup_delete_ne by exact H. reflexivity. Qed.

Ltac outcome_cases :=
  repeat match goal with
    | H : faulty (get ?m ?k) = _ |- context [classify_abs (get ?m ?k) ?sig ?warn] =>
        rewrite <- (classify_abs_fault _ sig warn) in H;
        destruct (classify_abs (get m k) sig warn) as [|?|[]];
        simpl in H; try discriminate H; clear H
    | H : faulty (get ?m ?k) = _ |- context [classify_raw (get ?m ?k) ?sig ?warn] =>
        rewrite <- (classify_raw_fault _ sig warn) in H;
        destruct (classify_raw (get m k) sig warn) as [|?|[]];
        simpl in H; try discriminate H; clear H
    end.

(** C1 (amended). The four metrics are evaluated inside one [try]. When
    the evaluation of a metric raises, the phrases and recommendations of
    the metrics evaluated before it (in the order shoulderAngle,
    spineHorizontalOffsetRatio, torsoAngleFromVertical, headForwardRatio)
    are kept, the single phrase "Error during metric analysis." is
    appended, and the metrics after it are not evaluated: the two lists
    are those of the input from which the faulting metric and the later
    ones are removed, plus that phrase. *)
Theorem C1_fault_keeps_earlier_metrics (m : gmap string pyval) (n : nat) (k : string) :
  assessor_order !! n = Some k ->
  faulty (get m k) = true ->
  forallb (fun k' => negb (faulty (get m k'))) (take n assessor_order) = true ->
  let earlier := foldr delete m (drop n assessor_order) in
  assessment_parts (generate_assessment m) =
    (assessment_parts (generate_assessment earlier) ++ ["Error during metric analysis."])%list
  /\ recommendations (generate_assessment m) = recommendations (generate_assessment earlier).
Proof.
  intros Hn Hk Hbefore earlier. subst earlier.
  rewrite !generate_assessment_eq.
  unfold shoulder_outcome, spine_outcome, torso_outcome, head_outcome.
  destruct n as [|[|[|[|n]]]]; cbn in Hn; try discriminate Hn;
    injection Hn as <-;
    cbn [take drop foldr assessor_order forallb] in *;
    rewrite ?andb_true_iff, ?negb_true_iff in Hbefore;
    repeat match type of Hbefore with _ /\ _ => destruct Hbefore as [? Hbefore] end;
    clear Hbefore;
    repeat (rewrite get_delete_eq || rewrite get_delete_ne by discriminate);
    outcome_cases; split; reflexivity.
Qed.

Lemma C1_witness :
  let m : gmap string pyval :=
    {[ "shoulderAngle" := PInt 12; "torsoAngleFromVertical" := PStr "upright";
       "headForwardRatio" := PInt 1 ]} in
  assessment_parts (generate_assessment m) =
    ["Shoulders significantly uneven."; "Error during metric analysis."]
  /\ recommendations (generate_assessment m) =
    ["Sit evenly, relax shoulders."; "Check armrest height/usage."].
Proof.
  cbv zeta.
  destruct (C1_fault_keeps_earlier_metrics
              {[ "shoulderAngle" := PInt 12; "torsoAngleFromVertical" := PStr "upright";
                 "headForwardRatio" := PInt 1 ]}
              2 "torsoAngleFromVertical") as [Hp Hr];
    [reflexivity | reflexivity | reflexivity |].
  split; [rewrite Hp | rewrite Hr]; vm_compute; reflexivity.
Defined.

(** C1 (as stated) fails: with a string under shoulderAngle and a torso
    angle of 25, the only faulting metric is the shoulder angle, yet the
    torso phrase and its three recommendations are lost, and the request
    is answered with an HTTP 500. *)
Lemma C1_counterexample :
  sole_fault faulty_shoulder "shoulderAngle" = true
  /\ ~ contained_per_metric faulty_shoulder [] "shoulderAngle"
  /\ generate_assessment faulty_shoulder =
     {| assessment_parts := ["Error during metric analysis."]; recommendations := [] |}
  /\ generate_assessment (delete "shoulderAngle" faulty_shoulder) =
     {| assessment_parts := ["Significant slouch or backward lean."];
        recommendations := ["Sit tall, chest up."; "Use lumbar support actively.";
                            "Stretch chest/back during breaks."] |}
  /\ analyze_posture_endpoint (request faulty_shoulder []) =
     Raise {| status_code := 500;
              detail := "Internal error during analysis: bad operand type for abs(): 'str'" |}.
Proof.
  split; [vm_compute; reflexivity|].
  split; [|split; [vm_compute; reflexivity|split; vm_compute; reflexivity]].
  intros (_ & H & _). vm_compute in H. discriminate H.
Qed.

(** The scorer repeats, outside the inner [try], the operations that
    raised inside it: whenever a recognized metric holds a value that is
    neither null nor a number, the request ends in an HTTP 500. *)
Lemma faulting_metric_aborts_request (m : gmap string pyval) (i : list string) (k : string) :
  k ∈ assessor_order -> faulty (get m k) = true ->
  exists e,
    analyze_posture_endpoint (request m i) =
    Raise {| status_code := 500;
             detail := "Internal error during analysis: " ++ exn_str e |}.
Proof.
  intros Hk Hf.
  assert (Hi : insufficient_data m i = false).
  { unfold insufficient_data. rewrite bool_decide_eq_false_2; [reflexivity|].
    intros ->. unfold get in Hf. rewrite lookup_empty in Hf. discriminate Hf. }
  destruct (scorer_raises m i Hi) as [e He].
  - rewrite shoulder_fault, torso_fault, spine_fault, head_fault.
    unfold assessor_order in Hk.
    rewrite !elem_of_cons in Hk.
    destruct Hk as [-> | [-> | [-> | [-> | Hk]]]]; [| | | |inversion Hk];
      rewrite Hf; rewrite ?orb_true_r; reflexivity.
  - exists e. apply (endpoint_raises (request m i) e He).
Qed.

(** * Further properties of the scorer and of the endpoint *)

(** ** The score as a sum of costs *)

Lemma charge_cost (vis : bool) (o : outcome) (s : Z) :
  is_fault o = false -> charge vis o s = Ok (s - cost vis o).
Proof.
  destruct o as [|e|sv]; simpl; try discriminate; intros _; [|reflexivity].
  destruct vis; simpl; f_equal; lia.
Qed.

Lemma cost_range (vis : bool) (o : outcome) : 0 <= cost vis o <= 22.
Proof.
  destruct o as [|e|[]], vis; simpl;
    unfold PENALTIES.missing_data_low, PENALTIES.warning, PENALTIES.significant; lia.
Qed.

Lemma scorer_formula (m : gmap string pyval) (i : list string) :
  insufficient_data m i = false ->
  is_fault (shoulder_outcome m) = false ->
  is_fault (torso_outcome m) = false ->
  is_fault (spine_outcome m) = false ->
  is_fault (head_outcome m) = false ->
  let vis := scorer_visibility i in
  calculate_overall_score m i =
  Ok (Some (100 - cost vis (shoulder_outcome m) - cost vis (torso_outcome m)
            - cost vis (spine_outcome m) - cost vis (head_outcome m)
            - (if vis then PENALTIES.visibility_issue else 0))).
Proof.
  intros Hi H1 H2 H3 H4 vis. rewrite calculate_overall_score_eq, Hi. cbv zeta.
  fold vis.
  rewrite charge_cost by assumption. cbn [py_bind].
  rewrite charge_cost by assumption. cbn [py_bind].
  rewrite charge_cost by assumption. cbn [py_bind].
  rewrite charge_cost by assumption. cbn [py_bind].
  do 2 f_equal.
  pose proof (cost_range vis (shoulder_outcome m)).
  pose proof (cost_range vis (torso_outcome m)).
  pose proof (cost_range vis (spine_outcome m)).
  pose proof (cost_range vis (head_outcome m)).
  unfold clamp, py_round, PENALTIES.visibility_issue. destruct vis; lia.
Qed.

Lemma outcomes_of_empty :
  shoulder_outcome ∅ = Absent /\ torso_outcome ∅ = Absent
  /\ spine_outcome ∅ = Absent /\ head_outcome ∅ = Absent.
Proof. repeat split; reflexivity. Qed.

(** The scorer returns only when no metric faults. *)
Lemma scorer_ok_no_fault (m : gmap string pyval) (i : list string) (sc : option Z) :
  calculate_overall_score m i = Ok sc ->
  is_fault (shoulder_outcome m) = false /\ is_fault (torso_outcome m) = false
  /\ is_fault (spine_outcome m) = false /\ is_fault (head_outcome m) = false.
Proof.
  intros Hsc. destruct (insufficient_data m i) eqn:Hi.
  - apply insufficient_data_spec in Hi as [-> _]. repeat split; reflexivity.
  - destruct (is_fault (shoulder_outcome m)) eqn:H1, (is_fault (torso_outcome m)) eqn:H2,
      (is_fault (spine_outcome m)) eqn:H3, (is_fault (head_outcome m)) eqn:H4;
      try (repeat split; reflexivity);
      (destruct (scorer_raises m i Hi) as [e He];
       [rewrite H1, H2, H3, H4; reflexivity | rewrite He in Hsc; discriminate Hsc]).
Qed.

Lemma no_fault_MetricSet (m : gmap string pyval) :
  is_fault (shoulder_outcome m) = false -> is_fault (torso_outcome m) = false ->
  is_fault (spine_outcome m) = false -> is_fault (head_outcome m) = false ->
  MetricSet m = true.
Proof.
  rewrite shoulder_fault, torso_fault, spine_fault, head_fault.
  unfold faulty, MetricSet, assessor_order. simpl.
  intros ->%negb_false_iff ->%negb_false_iff ->%negb_false_iff ->%negb_false_iff.
  reflexivity.
Qed.

Lemma faulty_not_empty (m : gmap string pyval) :
  MetricSet m = false -> m <> ∅.
Proof. intros H ->. discriminate H. Qed.

(** X1. The endpoint answers exactly when every recognized metric is
    absent, null or a number; on any other request it raises an HTTP 500
    whose detail is the text of the scorer's [TypeError]. *)
Theorem X1_answers_iff_metric_set (data : PostureMetricsInput.t) :
  ((exists fb, analyze_posture_endpoint data = Ok fb) <-> MetricSet (metrics_of data) = true)
  /\ (MetricSet (metrics_of data) = false ->
      exists e,
        calculate_overall_score (metrics_of data) (issues_of data) = Raise e
        /\ analyze_posture_endpoint data =
           Raise {| status_code := 500;
                    detail := "Internal error during analysis: " ++ exn_str e |}).
Proof.
  assert (Hbad : MetricSet (metrics_of data) = false ->
            exists e, calculate_overall_score (metrics_of data) (issues_of data) = Raise e).
  { intros Hm.
    destruct (calculate_overall_score (metrics_of data) (issues_of data)) as [sc|e] eqn:Hsc;
      [|exists e; reflexivity].
    destruct (scorer_ok_no_fault _ _ _ Hsc) as (H1 & H2 & H3 & H4).
    rewrite (no_fault_MetricSet _ H1 H2 H3 H4) in Hm. discriminate Hm. }
  split; [split|].
  - intros [fb Hfb]. destruct (endpoint_returned data fb Hfb) as (sc & Hsc & _).
    destruct (MetricSet (metrics_of data)) eqn:Hm; [reflexivity|].
    destruct (Hbad eq_refl) as [e He]. rewrite He in Hsc. discriminate Hsc.
  - intros Hm. destruct (MetricSet_no_fault _ Hm) as (H1 & H2 & H3 & H4).
    destruct (scorer_returns (metrics_of data) (issues_of data) H1 H2 H3 H4)
      as [[Hsc _] | (z & Hsc & _)];
      eexists; apply (endpoint_returns data _ Hsc).
  - intros Hm. destruct (Hbad Hm) as [e He]. exists e. split; [exact He|].
    apply (endpoint_raises data e He).
Qed.

Lemma X1_witness :
  exists e,
    calculate_overall_score {[ "headForwardRatio" := PList [PInt 1] ]} ["waiting"] = Raise e
    /\ analyze_posture_endpoint
         (request {[ "headForwardRatio" := PList [PInt 1] ]} ["waiting"]) =
       Raise {| status_code := 500;
                detail := "Internal error during analysis: " ++ exn_str e |}.
Proof.
  destruct (proj2 (X1_answers_iff_metric_set
              (request {[ "headForwardRatio" := PList [PInt 1] ]} ["waiting"])))
    as [e He]; [vm_compute; reflexivity | exists e; exact He].
Defined.

(** X2. A non-null score is never below 6 (four significant metrics and
    a visibility issue) nor above 100, so the clamping of line 113 never
    changes the accumulated value; both ends are reached. *)
Theorem X2_score_between_6_and_100 :
  (forall m i z, calculate_overall_score m i = Ok (Some z) -> 6 <= z <= 100)
  /\ calculate_overall_score
       {[ "shoulderAngle" := PInt (-11); "torsoAngleFromVertical" := PInt 21;
          "spineHorizontalOffsetRatio" := PInt 1; "headForwardRatio" := PInt 1 ]}
       ["Visibility: left shoulder"] = Ok (Some 6)
  /\ calculate_overall_score
       {[ "shoulderAngle" := PInt 5; "torsoAngleFromVertical" := PInt (-15);
          "spineHorizontalOffsetRatio" := PInt 0; "headForwardRatio" := PInt (-3) ]}
       [] = Ok (Some 100).
Proof.
  split; [|split; vm_compute; reflexivity].
  intros m i z Hz.
  destruct (scorer_ok_no_fault m i _ Hz) as (H1 & H2 & H3 & H4).
  destruct (insufficient_data m i) eqn:Hi.
  - rewrite calculate_overall_score_eq, Hi in Hz. discriminate Hz.
  - rewrite (scorer_formula m i Hi H1 H2 H3 H4) in Hz. injection Hz as <-.
    pose proof (cost_range (scorer_visibility i) (shoulder_outcome m)).
    pose proof (cost_range (scorer_visibility i) (torso_outcome m)).
    pose proof (cost_range (scorer_visibility i) (spine_outcome m)).
    pose proof (cost_range (scorer_visibility i) (head_outcome m)).
    unfold PENALTIES.visibility_issue. destruct (scorer_visibility i); lia.
Qed.

Lemma X2_witness :
  calculate_overall_score
    {[ "shoulderAngle" := PInt 90 ]} ["visibility: low light"] = Ok (Some 72)
  /\ 6 <= 72 <= 100.
Proof.
  assert (H : calculate_overall_score
                {[ "shoulderAngle" := PInt 90 ]} ["visibility: low light"]
              = Ok (Some 72)) by (vm_compute; reflexivity).
  split; [exact H|].
  exact (proj1 X2_score_between_6_and_100 _ _ _ H).
Defined.

(** ** Inputs with the same outcomes *)

Lemma insufficient_data_all_explained (m : gmap string pyval) (i : list string) :
  insufficient_data m i = bool_decide (m = ∅) && all_explained i.
Proof.
  unfold insufficient_data, all_explained. f_equal.
  destruct i; [reflexivity|]. rewrite bool_decide_eq_false_2 by discriminate. reflexivity.
Qed.

(** Scorer and endpoint see a mapping only through its being empty and
    through the outcomes of the four recognized metrics. *)
Lemma same_outcomes (m1 m2 : gmap string pyval) (i : list string) :
  (m1 = ∅ <-> m2 = ∅) ->
  shoulder_outcome m1 = shoulder_outcome m2 ->
  torso_outcome m1 = torso_outcome m2 ->
  spine_outcome m1 = spine_outcome m2 ->
  head_outcome m1 = head_outcome m2 ->
  calculate_overall_score m1 i = calculate_overall_score m2 i
  /\ generate_assessment m1 = generate_assessment m2
  /\ analyze_posture_endpoint (request m1 i) = analyze_posture_endpoint (request m2 i).
Proof.
  intros He H1 H2 H3 H4.
  assert (Hs : calculate_overall_score m1 i = calculate_overall_score m2 i).
  { rewrite !calculate_overall_score_eq, !insufficient_data_all_explained.
    rewrite (bool_decide_ext _ _ He), H1, H2, H3, H4. reflexivity. }
  assert (Hg : generate_assessment m1 = generate_assessment m2).
  { rewrite !generate_assessment_eq, H1, H2, H3, H4. reflexivity. }
  split; [exact Hs|]. split; [exact Hg|].
  unfold analyze_posture_endpoint. rewrite !analyze_posture_body_eq.
  change (metrics_of (request m1 i)) with m1.
  change (metrics_of (request m2 i)) with m2.
  change (issues_of (request m1 i)) with i.
  change (issues_of (request m2 i)) with i.
  rewrite Hs, Hg. reflexivity.
Qed.

Lemma outcomes_insert_other (m : gmap string pyval) (k : string) (v : pyval) :
  k ∉ assessor_order ->
  shoulder_outcome (<[k := v]> m) = shoulder_outcome m
  /\ torso_outcome (<[k := v]> m) = torso_outcome m
  /\ spine_outcome (<[k := v]> m) = spine_outcome m
  /\ head_outcome (<[k := v]> m) = head_outcome m.
Proof.
  intros Hk. unfold assessor_order in Hk.
  rewrite !not_elem_of_cons in Hk. destruct Hk as (K1 & K2 & K3 & K4 & _).
  unfold shoulder_outcome, torso_outcome, spine_outcome, head_outcome.
  rewrite !get_insert_ne by assumption. auto.
Qed.

(** X3. A key that is not one of the four recognized metrics is ignored:
    adding it, with any value, to a non-empty mapping changes neither the
    score nor the response; on the empty mapping it changes no phrase and
    no recommendation, but the mapping is then no longer empty for the
    insufficient-data test. *)
Theorem X3_unrecognized_key_ignored (m : gmap string pyval) (k : string) (v : pyval)
    (i : list string) :
  k ∉ assessor_order ->
  generate_assessment (<[k := v]> m) = generate_assessment m
  /\ (m <> ∅ ->
      calculate_overall_score (<[k := v]> m) i = calculate_overall_score m i
      /\ analyze_posture_endpoint (request (<[k := v]> m) i) =
         analyze_posture_endpoint (request m i)).
Proof.
  intros Hk. destruct (outcomes_insert_other m k v Hk) as (H1 & H2 & H3 & H4).
  split.
  - rewrite !generate_assessment_eq, H1, H2, H3, H4. reflexivity.
  - intros Hm.
    assert (He : <[k := v]> m = ∅ <-> m = ∅).
    { split; [intros H; destruct (insert_non_empty m k v H) | intros H; contradiction]. }
    destruct (same_outcomes _ _ i He H1 H2 H3 H4) as (Hs & _ & Hr). auto.
Qed.

Lemma X3_witness :
  calculate_overall_score
    (<["kneeAngle" := PStr "n/a"]> {[ "shoulderAngle" := PInt 7 ]}) []
  = calculate_overall_score {[ "shoulderAngle" := PInt 7 ]} [].
Proof.
  apply (X3_unrecognized_key_ignored {[ "shoulderAngle" := PInt 7 ]} "kneeAngle").
  - apply (bool_decide_unpack _). vm_compute. exact I.
  - intros H. apply (f_equal (fun m : gmap string pyval => m !! "shoulderAngle")) in H.
    vm_compute in H. discriminate.
Defined.

(** X4. A recognized metric that is absent and one that is null are
    treated alike: as long as another key keeps the mapping non-empty,
    mapping a recognized key to null gives the response of the mapping
    without that key. *)
Theorem X4_null_is_absent (m : gmap string pyval) (k : string) (i : list string) :
  delete k m <> ∅ ->
  calculate_overall_score (<[k := PNone]> m) i = calculate_overall_score (delete k m) i
  /\ analyze_posture_endpoint (request (<[k := PNone]> m) i) =
     analyze_posture_endpoint (request (delete k m) i).
Proof.
  intros Hm.
  assert (Hget : forall k', get (<[k := PNone]> m) k' = get (delete k m) k').
  { intros k'. unfold get. destruct (decide (k = k')) as [<- | Hne].
    - rewrite lookup_insert_eq, lookup_delete_eq. reflexivity.
    - rewrite lookup_insert_ne, lookup_delete_ne by exact Hne. reflexivity. }
  assert (He : <[k := PNone]> m = ∅ <-> delete k m = ∅).
  { split; [intros H; destruct (insert_non_empty m k PNone H) | intros H; contradiction]. }
  destruct (same_outcomes _ _ i He) as (Hs & _ & Hr);
    try (unfold shoulder_outcome, torso_outcome, spine_outcome, head_outcome;
         rewrite Hget; reflexivity).
  auto.
Qed.

Lemma X4_witness :
  calculate_overall_score
    (<["headForwardRatio" := PNone]>
       {[ "shoulderAngle" := PInt 7; "headForwardRatio" := PInt 1 ]}) []
  = calculate_overall_score
      (delete "headForwardRatio"
         {[ "shoulderAngle" := PInt 7; "headForwardRatio" := PInt 1 ]}) [].
Proof.
  apply (X4_null_is_absent
           {[ "shoulderAngle" := PInt 7; "headForwardRatio" := PInt 1 ]}
           "headForwardRatio").
  intros H. apply (f_equal (fun m : gmap string pyval => m !! "shoulderAngle")) in H.
  vm_compute in H. discriminate.
Defined.

(** ** Replacing the value of one recognized metric *)

Lemma outcomes_insert_shoulder (m : gmap string pyval) (v : pyval) :
  shoulder_outcome (<["shoulderAngle" := v]> m) = classify_at "shoulderAngle" v
  /\ torso_outcome (<["shoulderAngle" := v]> m) = torso_outcome m
  /\ spine_outcome (<["shoulderAngle" := v]> m) = spine_outcome m
  /\ head_outcome (<["shoulderAngle" := v]> m) = head_outcome m.
Proof.
  unfold shoulder_outcome, torso_outcome, spine_outcome, head_outcome.
  rewrite get_insert_eq, !get_insert_ne by discriminate. auto.
Qed.

Lemma outcomes_insert_torso (m : gmap string pyval) (v : pyval) :
  shoulder_outcome (<["torsoAngleFromVertical" := v]> m) = shoulder_outcome m
  /\ torso_outcome (<["torsoAngleFromVertical" := v]> m)
     = classify_at "torsoAngleFromVertical" v
  /\ spine_outcome (<["torsoAngleFromVertical" := v]> m) = spine_outcome m
  /\ head_outcome (<["torsoAngleFromVertical" := v]> m) = head_outcome m.
Proof.
  unfold shoulder_outcome, torso_outcome, spine_outcome, head_outcome.
  rewrite get_insert_eq, !get_insert_ne by discriminate. auto.
Qed.

Lemma outcomes_insert_spine (m : gmap string pyval) (v : pyval) :
  shoulder_outcome (<["spineHorizontalOffsetRatio" := v]> m) = shoulder_outcome m
  /\ torso_outcome (<["spineHorizontalOffsetRatio" := v]> m) = torso_outcome m
  /\ spine_outcome (<["spineHorizontalOffsetRatio" := v]> m)
     = classify_at "spineHorizontalOffsetRatio" v
  /\ head_outcome (<["spineHorizontalOffsetRatio" := v]> m) = head_outcome m.
Proof.
  unfold shoulder_outcome, torso_outcome, spine_outcome, head_outcome.
  rewrite get_insert_eq, !get_insert_ne by discriminate. auto.
Qed.

Lemma outcomes_insert_head (m : gmap string pyval) (v : pyval) :
  shoulder_outcome (<["headForwardRatio" := v]> m) = shoulder_outcome m
  /\ torso_outcome (<["headForwardRatio" := v]> m) = torso_outcome m
  /\ spine_outcome (<["headForwardRatio" := v]> m) = spine_outcome m
  /\ head_outcome (<["headForwardRatio" := v]> m) = classify_at "headForwardRatio" v.
Proof.
  unfold shoulder_outcome, torso_outcome, spine_outcome, head_outcome.
  rewrite get_insert_eq, !get_insert_ne by discriminate. auto.
Qed.

Lemma recognized_cases (k : string) :
  k ∈ assessor_order ->
  k = "shoulderAngle" \/ k = "spineHorizontalOffsetRatio"
  \/ k = "torsoAngleFromVertical" \/ k = "headForwardRatio".
Proof.
  unfold assessor_order. rewrite !elem_of_cons.
  intros [?|[?|[?|[?|H]]]]; auto. inversion H.
Qed.

Lemma insert_nonempty_iff (m : gmap string pyval) (k : string) (a1 a2 : pyval) :
  <[k := a1]> m = ∅ <-> <[k := a2]> m = ∅.
Proof. split; intros H; destruct (insert_non_empty _ _ _ H). Qed.

(** Two values with the same outcome under the rule of their key are
    interchangeable. *)
Lemma replace_same (m : gmap string pyval) (k : string) (a1 a2 : pyval) (i : list string) :
  k ∈ assessor_order ->
  classify_at k a1 = classify_at k a2 ->
  calculate_overall_score (<[k := a1]> m) i = calculate_overall_score (<[k := a2]> m) i
  /\ generate_assessment (<[k := a1]> m) = generate_assessment (<[k := a2]> m)
  /\ analyze_posture_endpoint (request (<[k := a1]> m) i) =
     analyze_posture_endpoint (request (<[k := a2]> m) i).
Proof.
  intros Hk Hc.
  destruct (recognized_cases k Hk) as [-> | [-> | [-> | ->]]];
    apply (same_outcomes _ _ i (insert_nonempty_iff m _ a1 a2)).
  all: try (destruct (outcomes_insert_shoulder m a1) as (A1 & A2 & A3 & A4);
            destruct (outcomes_insert_shoulder m a2) as (B1 & B2 & B3 & B4); congruence).
  all: try (destruct (outcomes_insert_spine m a1) as (A1 & A2 & A3 & A4);
            destruct (outcomes_insert_spine m a2) as (B1 & B2 & B3 & B4); congruence).
  all: try (destruct (outcomes_insert_torso m a1) as (A1 & A2 & A3 & A4);
            destruct (outcomes_insert_torso m a2) as (B1 & B2 & B3 & B4); congruence).
  all: destruct (outcomes_insert_head m a1) as (A1 & A2 & A3 & A4);
       destruct (outcomes_insert_head m a2) as (B1 & B2 & B3 & B4); congruence.
Qed.

Lemma SFabs_opp (f : spec_float) : SFabs (SFopp f) = SFabs f.
Proof. destruct f; reflexivity. Qed.

Lemma classify_abs_same_abs (a1 a2 x : pyval) (sig warn : spec_float) :
  py_abs a1 = Ok x -> py_abs a2 = Ok x ->
  classify_abs a1 sig warn = classify_abs a2 sig warn.
Proof.
  intros H1 H2. unfold classify_abs, outcome_of. rewrite H1, H2.
  destruct a1; try discriminate H1; destruct a2; try discriminate H2; reflexivity.
Qed.

(** X5. The two angles count by their absolute value only: the response
    (score, phrases, recommendations, extras) for an integer angle [z]
    under shoulderAngle or torsoAngleFromVertical is the response for
    [-z], and likewise for a float and its opposite. *)
Theorem X5_angles_are_symmetric (m : gmap string pyval) (k : string) (i : list string) :
  k = "shoulderAngle" \/ k = "torsoAngleFromVertical" ->
  (forall z : Z,
     calculate_overall_score (<[k := PInt (- z)]> m) i
     = calculate_overall_score (<[k := PInt z]> m) i
     /\ analyze_posture_endpoint (request (<[k := PInt (- z)]> m) i)
        = analyze_posture_endpoint (request (<[k := PInt z]> m) i))
  /\ (forall f : spec_float,
        calculate_overall_score (<[k := PFloat (SFopp f)]> m) i
        = calculate_overall_score (<[k := PFloat f]> m) i
        /\ analyze_posture_endpoint (request (<[k := PFloat (SFopp f)]> m) i)
           = analyze_posture_endpoint (request (<[k := PFloat f]> m) i)).
Proof.
  intros Hk.
  assert (Hin : k ∈ assessor_order).
  { unfold assessor_order. destruct Hk as [-> | ->]; rewrite !elem_of_cons; auto. }
  split.
  - intros z.
    destruct (replace_same m k (PInt (- z)) (PInt z) i Hin) as (Hs & _ & Hr); [|auto].
    destruct Hk as [-> | ->];
      apply (classify_abs_same_abs _ _ (PInt (Z.abs z))); simpl;
      rewrite ?Z.abs_opp; reflexivity.
  - intros f.
    destruct (replace_same m k (PFloat (SFopp f)) (PFloat f) i Hin) as (Hs & _ & Hr);
      [|auto].
    destruct Hk as [-> | ->];
      apply (classify_abs_same_abs _ _ (PFloat (SFabs f))); simpl;
      rewrite ?SFabs_opp; reflexivity.
Qed.

Lemma X5_witness :
  calculate_overall_score (<["torsoAngleFromVertical" := PInt (- 17)]> ∅) ["waiting"]
  = calculate_overall_score (<["torsoAngleFromVertical" := PInt 17]> ∅) ["waiting"].
Proof.
  exact (proj1 (proj1 (X5_angles_are_symmetric ∅ "torsoAngleFromVertical" ["waiting"]
                         (or_intror eq_refl)) 17)).
Defined.

Lemma xle_not_xgt (a b t : xnum) :
  xle a b = true -> xgt b t = false -> xgt a t = false.
Proof.
  intros Hle Hb. destruct (xgt a t) eqn:Ha; [|reflexivity].
  rewrite (xgt_xle_trans a b t Hle Ha) in Hb. discriminate Hb.
Qed.

Lemma classify_raw_fine (v b : pyval) (sig warn : spec_float) :
  py_le v b = Ok true ->
  py_gt b (PFloat sig) = Ok false -> py_gt b (PFloat warn) = Ok false ->
  classify_raw v sig warn = Measured Fine.
Proof.
  unfold py_le, py_gt, classify_raw, outcome_of, grade, py_gt.
  destruct (num v) as [a|] eqn:Hv; [|discriminate].
  destruct (num b) as [c|]; [|discriminate]. simpl.
  intros [= Hle] [= Hs] [= Hw].
  rewrite (xle_not_xgt a c _ Hle Hs). simpl.
  rewrite (xle_not_xgt a c _ Hle Hw). simpl.
  destruct v; try discriminate Hv; reflexivity.
Qed.

(** X6. The two ratios count in the positive direction only: a
    spineHorizontalOffsetRatio or headForwardRatio that is zero or
    negative, however large, gives the response of the ratio 0 - no
    penalty, no phrase, no recommendation for that metric. *)
Theorem X6_negative_ratio_is_fine (m : gmap string pyval) (k : string) (v : pyval)
    (i : list string) :
  k = "spineHorizontalOffsetRatio" \/ k = "headForwardRatio" ->
  py_le v (PInt 0) = Ok true ->
  classify_at k v = Measured Fine
  /\ calculate_overall_score (<[k := v]> m) i
     = calculate_overall_score (<[k := PInt 0]> m) i
  /\ analyze_posture_endpoint (request (<[k := v]> m) i)
     = analyze_posture_endpoint (request (<[k := PInt 0]> m) i).
Proof.
  intros Hk Hle.
  assert (Hin : k ∈ assessor_order).
  { unfold assessor_order. destruct Hk as [-> | ->]; rewrite !elem_of_cons; auto. }
  assert (Hv : classify_at k v = Measured Fine).
  { destruct Hk as [-> | ->];
      apply (classify_raw_fine v (PInt 0) _ _ Hle); reflexivity. }
  assert (H0 : classify_at k (PInt 0) = Measured Fine).
  { destruct Hk as [-> | ->]; reflexivity. }
  split; [exact Hv|].
  destruct (replace_same m k v (PInt 0) i Hin) as (Hs & _ & Hr); [congruence | auto].
Qed.

Lemma X6_witness :
  calculate_overall_score (<["headForwardRatio" := PInt (- 40)]> ∅) []
  = calculate_overall_score (<["headForwardRatio" := PInt 0]> ∅) [].
Proof.
  exact (proj1 (proj2 (X6_negative_ratio_is_fine ∅ "headForwardRatio" (PInt (- 40)) []
                         (or_intror eq_refl) eq_refl))).
Defined.

(** ** Monotonicity in the other three metrics *)

Lemma no_fault_of_numeric_abs (v : pyval) (sig warn : spec_float) :
  numeric_or_null v = true -> is_fault (classify_abs v sig warn) = false.
Proof. intros H. rewrite classify_abs_fault. unfold faulty. rewrite H. reflexivity. Qed.

Lemma no_fault_of_numeric_raw (v : pyval) (sig warn : spec_float) :
  numeric_or_null v = true -> is_fault (classify_raw v sig warn) = false.
Proof. intros H. rewrite classify_raw_fault. unfold faulty. rewrite H. reflexivity. Qed.

Ltac close_no_fault :=
  match goal with
  | |- insufficient_data (<[_ := _]> _) _ = false => apply insufficient_data_insert
  | H : ?o = Measured _ |- is_fault ?o = false => rewrite H; reflexivity
  | |- is_fault (shoulder_outcome _) = false => apply no_fault_of_numeric_abs; assumption
  | |- is_fault (torso_outcome _) = false => apply no_fault_of_numeric_abs; assumption
  | |- is_fault (spine_outcome _) = false => apply no_fault_of_numeric_raw; assumption
  | |- is_fault (head_outcome _) = false => apply no_fault_of_numeric_raw; assumption
  end.

Ltac monotone_case L m a1 a2 i :=
  let A1 := fresh "A" in let A2 := fresh "A" in
  let A3 := fresh "A" in let A4 := fresh "A" in
  let B1 := fresh "B" in let B2 := fresh "B" in
  let B3 := fresh "B" in let B4 := fresh "B" in
  destruct (L m a1) as (A1 & A2 & A3 & A4);
  destruct (L m a2) as (B1 & B2 & B3 & B4);
  rewrite (scorer_formula (<[_ := a1]> m) i), (scorer_formula (<[_ := a2]> m) i);
  rewrite ?A1, ?A2, ?A3, ?A4, ?B1, ?B2, ?B3, ?B4;
  try close_no_fault.

(** With the other three metrics null or numbers, a value of [k] that
    is graded at least as severely never gives a larger score. *)
Lemma insert_monotone (m : gmap string pyval) (k : string) (a1 a2 : pyval)
    (s1 s2 : severity) (i : list string) :
  k ∈ assessor_order ->
  forallb (fun k' => numeric_or_null (get m k')) (other_keys k) = true ->
  classify_at k a1 = Measured s1 ->
  classify_at k a2 = Measured s2 ->
  severity_penalty s1 <= severity_penalty s2 ->
  exists z1 z2,
    calculate_overall_score (<[k := a1]> m) i = Ok (Some z1)
    /\ calculate_overall_score (<[k := a2]> m) i = Ok (Some z2)
    /\ z2 <= z1.
Proof.
  intros Hk Ho H1 H2 Hp.
  destruct (recognized_cases k Hk) as [-> | [-> | [-> | ->]]];
    cbn in Ho; rewrite !andb_true_iff in Ho; destruct Ho as (O1 & O2 & O3 & _).
  - monotone_case outcomes_insert_shoulder m a1 a2 i.
    do 2 eexists. split; [reflexivity|]. split; [reflexivity|].
    rewrite H1, H2. simpl. lia.
  - monotone_case outcomes_insert_spine m a1 a2 i.
    do 2 eexists. split; [reflexivity|]. split; [reflexivity|].
    rewrite H1, H2. simpl. lia.
  - monotone_case outcomes_insert_torso m a1 a2 i.
    do 2 eexists. split; [reflexivity|]. split; [reflexivity|].
    rewrite H1, H2. simpl. lia.
  - monotone_case outcomes_insert_head m a1 a2 i.
    do 2 eexists. split; [reflexivity|]. split; [reflexivity|].
    rewrite H1, H2. simpl. lia.
Qed.

Lemma classify_raw_measured (a : pyval) (s : severity) (sig warn : spec_float) :
  is_number a = true -> grade a sig warn = Ok s -> classify_raw a sig warn = Measured s.
Proof.
  intros Ha Hs. unfold classify_raw, outcome_of. rewrite Hs.
  destruct a; try discriminate Ha; reflexivity.
Qed.

Lemma py_le_numbers (x y : pyval) (b : bool) :
  py_le x y = Ok b -> is_number x = true /\ is_number y = true.
Proof.
  unfold py_le, is_number. destruct (num x), (num y); try discriminate. auto.
Qed.

(** X7. With the other metrics and the issue list fixed (the other three
    metrics being null or numbers), a torso angle of larger absolute
    value never gives a larger score. *)
Theorem X7_torso_monotone (m : gmap string pyval) (i : list string) (a1 a2 : pyval) :
  forallb (fun k => numeric_or_null (get m k))
    ["shoulderAngle"; "spineHorizontalOffsetRatio"; "headForwardRatio"] = true ->
  (let! x := py_abs a1 in let! y := py_abs a2 in py_le x y) = Ok true ->
  exists s1 s2,
    calculate_overall_score (<["torsoAngleFromVertical" := a1]> m) i = Ok (Some s1)
    /\ calculate_overall_score (<["torsoAngleFromVertical" := a2]> m) i = Ok (Some s2)
    /\ s2 <= s1.
Proof.
  intros Hm Hle.
  destruct (py_abs a1) as [x|] eqn:Hx; [|discriminate].
  destruct (py_abs a2) as [y|] eqn:Hy; [|discriminate].
  simpl in Hle.
  destruct (grade_monotone x y THRESHOLDS.torso_angle_significant
              THRESHOLDS.torso_angle_warning Hle) as (sx & sy & Hsx & Hsy & Hp).
  apply (insert_monotone m "torsoAngleFromVertical" a1 a2 sx sy i).
  - unfold assessor_order. rewrite !elem_of_cons. auto.
  - exact Hm.
  - apply (classify_abs_measured a1 x sx _ _ Hx Hsx).
  - apply (classify_abs_measured a2 y sy _ _ Hy Hsy).
  - exact Hp.
Qed.

Lemma X7_witness :
  exists s1 s2,
    calculate_overall_score (<["torsoAngleFromVertical" := PInt (- 16)]> ∅) []
    = Ok (Some s1)
    /\ calculate_overall_score (<["torsoAngleFromVertical" := PInt 30]> ∅) []
       = Ok (Some s2)
    /\ s2 <= s1.
Proof.
  exact (X7_torso_monotone ∅ [] (PInt (- 16)) (PInt 30) eq_refl eq_refl).
Defined.

(** X8. With the other metrics and the issue list fixed (the other three
    metrics being null or numbers), a larger spineHorizontalOffsetRatio
    or headForwardRatio never gives a larger score; the ratios are
    compared as they are, not by absolute value. *)
Theorem X8_ratio_monotone (m : gmap string pyval) (k : string) (i : list string)
    (a1 a2 : pyval) :
  k = "spineHorizontalOffsetRatio" \/ k = "headForwardRatio" ->
  forallb (fun k' => numeric_or_null (get m k')) (other_keys k) = true ->
  py_le a1 a2 = Ok true ->
  exists s1 s2,
    calculate_overall_score (<[k := a1]> m) i = Ok (Some s1)
    /\ calculate_overall_score (<[k := a2]> m) i = Ok (Some s2)
    /\ s2 <= s1.
Proof.
  intros Hk Hm Hle.
  destruct (py_le_numbers a1 a2 true Hle) as [N1 N2].
  assert (Hin : k ∈ assessor_order).
  { unfold assessor_order. destruct Hk as [-> | ->]; rewrite !elem_of_cons; auto. }
  destruct Hk as [-> | ->].
  - destruct (grade_monotone a1 a2 THRESHOLDS.spine_offset_ratio_significant
                THRESHOLDS.spine_offset_ratio_warning Hle) as (sx & sy & Hsx & Hsy & Hp).
    apply (insert_monotone m _ a1 a2 sx sy i Hin Hm); [| |exact Hp].
    + apply (classify_raw_measured a1 sx _ _ N1 Hsx).
    + apply (classify_raw_measured a2 sy _ _ N2 Hsy).
  - destruct (grade_monotone a1 a2 THRESHOLDS.head_forward_ratio_significant
                THRESHOLDS.head_forward_ratio_warning Hle) as (sx & sy & Hsx & Hsy & Hp).
    apply (insert_monotone m _ a1 a2 sx sy i Hin Hm); [| |exact Hp].
    + apply (classify_raw_measured a1 sx _ _ N1 Hsx).
    + apply (classify_raw_measured a2 sy _ _ N2 Hsy).
Qed.

Lemma X8_witness :
  exists s1 s2,
    calculate_overall_score
      (<["headForwardRatio" := PFloat THRESHOLDS.head_forward_ratio_warning]> ∅) []
    = Ok (Some s1)
    /\ calculate_overall_score
         (<["headForwardRatio" := PFloat THRESHOLDS.head_forward_ratio_significant]> ∅) []
       = Ok (Some s2)
    /\ s2 <= s1.
Proof.
  exact (X8_ratio_monotone ∅ "headForwardRatio" []
           (PFloat THRESHOLDS.head_forward_ratio_warning)
           (PFloat THRESHOLDS.head_forward_ratio_significant)
           (or_intror eq_refl) eq_refl eq_refl).
Defined.

(** ** Integer angles against the cutoffs *)

Lemma Qcompare_inject_Z (a n : Z) : (inject_Z a ?= inject_Z n)%Q = (a ?= n)%Z.
Proof. unfold Qcompare. simpl. rewrite !Z.mul_1_r. reflexivity. Qed.

Lemma xgt_int_cutoff (a n : Z) (t : spec_float) :
  match SF2X t with XFin q => (q == inject_Z n)%Q | _ => False end ->
  xgt (XFin (inject_Z a)) (SF2X t) = (n <? a)%Z.
Proof.
  destruct (SF2X t) as [| |q]; try contradiction. intros Hq. simpl.
  rewrite Hq, Qcompare_inject_Z.
  destruct (Z.compare_spec a n), (Z.ltb_spec n a); try reflexivity; lia.
Qed.

Lemma classify_abs_int (z n_sig n_warn : Z) (sig warn : spec_float) :
  match SF2X sig with XFin q => (q == inject_Z n_sig)%Q | _ => False end ->
  match SF2X warn with XFin q => (q == inject_Z n_warn)%Q | _ => False end ->
  classify_abs (PInt z) sig warn = Measured (band n_sig n_warn (Z.abs z)).
Proof.
  intros Hs Hw. unfold classify_abs, outcome_of, grade, py_gt, band.
  cbn [is_None py_abs py_bind num].
  rewrite (xgt_int_cutoff _ _ _ Hs), (xgt_int_cutoff _ _ _ Hw).
  destruct (n_sig <? Z.abs z)%Z; [reflexivity|].
  destruct (n_warn <? Z.abs z)%Z; reflexivity.
Qed.

Lemma shoulder_int (z : Z) :
  classify_at "shoulderAngle" (PInt z) = Measured (band 10 5 (Z.abs z)).
Proof. apply classify_abs_int; vm_compute; reflexivity. Qed.

Lemma torso_int (z : Z) :
  classify_at "torsoAngleFromVertical" (PInt z) = Measured (band 20 15 (Z.abs z)).
Proof. apply classify_abs_int; vm_compute; reflexivity. Qed.

(** X9. The cutoffs are strict. For an integer shoulder angle [z] sent
    alone and no issue: if |z| > 10 the score is 63 and the phrase is the
    significant one, if 5 < |z| <= 10 the score is 71 and the phrase the
    slight one, and if |z| <= 5 the score is 85 and there is no phrase.
    The same holds for an integer torso angle with the cutoffs 20 and 15. *)
Theorem X9_integer_angle_bands (z : Z) :
  (calculate_overall_score {[ "shoulderAngle" := PInt z ]} []
   = Ok (Some (85 - severity_penalty (band 10 5 (Z.abs z))))
   /\ assessment_parts (generate_assessment {[ "shoulderAngle" := PInt z ]})
      = match band 10 5 (Z.abs z) with
        | Significant => ["Shoulders significantly uneven."]
        | Warning => ["Shoulders slightly uneven."]
        | Fine => []
        end)
  /\ (calculate_overall_score {[ "torsoAngleFromVertical" := PInt z ]} []
      = Ok (Some (85 - severity_penalty (band 20 15 (Z.abs z))))
      /\ assessment_parts (generate_assessment {[ "torsoAngleFromVertical" := PInt z ]})
         = match band 20 15 (Z.abs z) with
           | Significant => ["Significant slouch or backward lean."]
           | Warning => ["Slight slouch or backward lean."]
           | Fine => []
           end).
Proof.
  destruct outcomes_of_empty as (E1 & E2 & E3 & E4).
  rewrite <- !insert_empty. split.
  - destruct (outcomes_insert_shoulder ∅ (PInt z)) as (A1 & A2 & A3 & A4).
    rewrite calculate_overall_score_eq, insufficient_data_insert, generate_assessment_eq.
    rewrite A1, A2, A3, A4, E2, E3, E4, shoulder_int.
    destruct (band 10 5 (Z.abs z)); split; reflexivity.
  - destruct (outcomes_insert_torso ∅ (PInt z)) as (A1 & A2 & A3 & A4).
    rewrite calculate_overall_score_eq, insufficient_data_insert, generate_assessment_eq.
    rewrite A1, A2, A3, A4, E1, E3, E4, torso_int.
    destruct (band 20 15 (Z.abs z)); split; reflexivity.
Qed.

(** ** The score and the phrases agree *)

Lemma classify_abs_cases (v : pyval) (sig warn : spec_float) :
  numeric_or_null v = true ->
  is_None v = true /\ classify_abs v sig warn = Absent
  \/ is_None v = false /\ exists s, classify_abs v sig warn = Measured s.
Proof.
  intros H. pose proof (no_fault_of_numeric_abs v sig warn H) as Hf.
  unfold classify_abs, outcome_of in *.
  destruct (is_None v); [left; auto | right; split; [reflexivity|]].
  destruct (let! a := py_abs v in grade a sig warn) as [s|e]; [eauto | discriminate Hf].
Qed.

Lemma classify_raw_cases (v : pyval) (sig warn : spec_float) :
  numeric_or_null v = true ->
  is_None v = true /\ classify_raw v sig warn = Absent
  \/ is_None v = false /\ exists s, classify_raw v sig warn = Measured s.
Proof.
  intros H. pose proof (no_fault_of_numeric_raw v sig warn H) as Hf.
  unfold classify_raw, outcome_of in *.
  destruct (is_None v); [left; auto | right; split; [reflexivity|]].
  destruct (grade v sig warn) as [s|e]; [eauto | discriminate Hf].
Qed.

(** X10. Scorer and endpoint grade alike (the thresholds are shared).
    When every recognized metric is absent, null or a number and the
    data are not insufficient, the score is 100 minus 22 for every
    "significant" phrase of the response, minus 14 for every other
    phrase, minus 6 if an issue mentions visibility and otherwise minus 5
    for every recognized metric that is absent or null. *)
Theorem X10_score_matches_phrases (m : gmap string pyval) (i : list string) :
  MetricSet m = true ->
  insufficient_data m i = false ->
  calculate_overall_score m i =
  Ok (Some (100 - sum_points (assessment_parts (generate_assessment m))
            - (if scorer_visibility i then PENALTIES.visibility_issue
               else PENALTIES.missing_data_low * missing m))).
Proof.
  intros Hm Hi. destruct (MetricSet_no_fault m Hm) as (F1 & F2 & F3 & F4).
  rewrite (scorer_formula m i Hi F1 F2 F3 F4), generate_assessment_eq.
  unfold MetricSet, assessor_order in Hm. cbn [forallb] in Hm.
  rewrite !andb_true_iff in Hm. destruct Hm as (N1 & N2 & N3 & N4 & _).
  unfold missing, assessor_order. cbn [List.filter].
  unfold shoulder_outcome, torso_outcome, spine_outcome, head_outcome.
  destruct (classify_abs_cases _ THRESHOLDS.shoulder_angle_significant
              THRESHOLDS.shoulder_angle_warning N1) as [[-> ->] | [-> [s1 ->]]];
  destruct (classify_raw_cases _ THRESHOLDS.spine_offset_ratio_significant
              THRESHOLDS.spine_offset_ratio_warning N2) as [[-> ->] | [-> [s2 ->]]];
  destruct (classify_abs_cases _ THRESHOLDS.torso_angle_significant
              THRESHOLDS.torso_angle_warning N3) as [[-> ->] | [-> [s3 ->]]];
  destruct (classify_raw_cases _ THRESHOLDS.head_forward_ratio_significant
              THRESHOLDS.head_forward_ratio_warning N4) as [[-> ->] | [-> [s4 ->]]];
  try destruct s1; try destruct s2; try destruct s3; try destruct s4;
  destruct (scorer_visibility i); vm_compute; reflexivity.
Qed.

Lemma X10_witness :
  calculate_overall_score
    {[ "shoulderAngle" := PInt 12; "headForwardRatio" := PInt 1;
       "torsoAngleFromVertical" := PInt 16 ]} []
  = Ok (Some (100 - (22 + 14 + 22) - 5 * 1)).
Proof.
  exact (X10_score_matches_phrases
           {[ "shoulderAngle" := PInt 12; "headForwardRatio" := PInt 1;
              "torsoAngleFromVertical" := PInt 16 ]} [] eq_refl eq_refl).
Defined.

(** ** What the issue list contributes *)

Lemma compose_flags (sc : option Z) (st : lists) (i1 i2 : list string) :
  composer_visibility i1 = composer_visibility i2 ->
  composer_waiting i1 = composer_waiting i2 ->
  compose sc st i1 = compose sc st i2.
Proof.
  intros Hv Hw.
  unfold compose, looks_great, show_extras, looks_great, only_visibility_or_waiting,
    compiled_assessment.
  rewrite Hv, Hw. reflexivity.
Qed.

(** The issue list is read through four tests only. *)
Lemma issue_flags (m : gmap string pyval) (i1 i2 : list string) :
  all_explained i1 = all_explained i2 ->
  scorer_visibility i1 = scorer_visibility i2 ->
  composer_visibility i1 = composer_visibility i2 ->
  composer_waiting i1 = composer_waiting i2 ->
  calculate_overall_score m i1 = calculate_overall_score m i2
  /\ analyze_posture_endpoint (request m i1) = analyze_posture_endpoint (request m i2).
Proof.
  intros Ha Hs Hv Hw.
  assert (Hsc : calculate_overall_score m i1 = calculate_overall_score m i2).
  { rewrite !calculate_overall_score_eq, !insufficient_data_all_explained, Ha, Hs.
    reflexivity. }
  split; [exact Hsc|].
  unfold analyze_posture_endpoint. rewrite !analyze_posture_body_eq.
  change (metrics_of (request m i1)) with m.
  change (metrics_of (request m i2)) with m.
  change (issues_of (request m i1)) with i1.
  change (issues_of (request m i2)) with i2.
  rewrite Hsc.
  destruct (calculate_overall_score m i2) as [sc|e]; [|reflexivity].
  simpl. rewrite (compose_flags sc _ i1 i2 Hv Hw). reflexivity.
Qed.

Lemma forallb_same_elements (f : string -> bool) (l1 l2 : list string) :
  (forall s, s ∈ l1 <-> s ∈ l2) -> forallb f l1 = forallb f l2.
Proof.
  intros H. apply eq_true_iff_eq. rewrite !forallb_forall.
  split; intros Hf s Hs; apply Hf, list_elem_of_In, H, list_elem_of_In, Hs.
Qed.

Lemma existsb_same_elements (f : string -> bool) (l1 l2 : list string) :
  (forall s, s ∈ l1 <-> s ∈ l2) -> existsb f l1 = existsb f l2.
Proof.
  intros H. apply eq_true_iff_eq. rewrite !existsb_exists.
  split; intros (s & Hs & Hf); exists s; (split; [|exact Hf]);
    apply list_elem_of_In, H, list_elem_of_In, Hs.
Qed.

(** X11. The issue list counts as a set: two lists with the same
    strings, in any order and with any repetitions, give the same score
    and the same response. *)
Theorem X11_issues_as_a_set (m : gmap string pyval) (i1 i2 : list string) :
  (forall s, s ∈ i1 <-> s ∈ i2) ->
  calculate_overall_score m i1 = calculate_overall_score m i2
  /\ analyze_posture_endpoint (request m i1) = analyze_posture_endpoint (request m i2).
Proof.
  intros H. apply issue_flags.
  - apply forallb_same_elements, H.
  - apply existsb_same_elements, H.
  - apply existsb_same_elements, H.
  - apply existsb_same_elements, H.
Qed.

Lemma X11_witness :
  analyze_posture_endpoint (request ∅ ["waiting"; "low visibility"; "waiting"])
  = analyze_posture_endpoint (request ∅ ["low visibility"; "waiting"]).
Proof.
  refine (proj2 (X11_issues_as_a_set ∅ ["waiting"; "low visibility"; "waiting"]
                   ["low visibility"; "waiting"] _)).
  intros s. rewrite !elem_of_cons. tauto.
Defined.





(** X13. For a non-empty metric mapping the score reads the issue list
    only to see whether some string mentions "visibility": issues that
    mention "waiting", "unclear" or anything else do not change it. *)
Theorem X13_score_reads_visibility_only (m : gmap string pyval) (i : list string) :
  m <> ∅ ->
  calculate_overall_score m i =
  calculate_overall_score m (if scorer_visibility i then ["visibility"] else []).
Proof.
  intros Hm. rewrite !calculate_overall_score_eq, !insufficient_data_all_explained.
  rewrite bool_decide_eq_false_2 by exact Hm. simpl.
  destruct (scorer_visibility i); reflexivity.
Qed.

Lemma X13_witness :
  calculate_overall_score {[ "shoulderAngle" := PInt 7 ]} ["image unclear"; "waiting"]
  = calculate_overall_score {[ "shoulderAngle" := PInt 7 ]} [].
Proof.
  refine (X13_score_reads_visibility_only
            {[ "shoulderAngle" := PInt 7 ]} ["image unclear"; "waiting"] _).
  intros H. apply (f_equal (fun m : gmap string pyval => m !! "shoulderAngle")) in H.
  vm_compute in H. discriminate.
Defined.

(** ** The shape of a response *)

Lemma scorer_visibility_composer (i : list string) :
  scorer_visibility i = true -> composer_visibility i = true.
Proof.
  unfold scorer_visibility, composer_visibility. rewrite !existsb_exists.
  intros (s & Hs & Hv). exists s. split; [exact Hs|]. rewrite Hv. reflexivity.
Qed.

(** A response is composed from the lists of four outcomes none of which
    is a fault. *)
Lemma returned_cases (data : PostureMetricsInput.t) (fb : PostureFeedback.t) :
  analyze_posture_endpoint data = Ok fb ->
  exists sc o1 o2 o3 o4,
    calculate_overall_score (metrics_of data) (issues_of data) = Ok sc
    /\ generate_assessment (metrics_of data) = assess_outcomes o1 o2 o3 o4
    /\ is_fault o1 = false /\ is_fault o2 = false
    /\ is_fault o3 = false /\ is_fault o4 = false
    /\ fb = compose sc (assess_outcomes o1 o2 o3 o4) (issues_of data).
Proof.
  intros Hfb. destruct (endpoint_returned data fb Hfb) as (sc & Hsc & ->).
  destruct (scorer_ok_no_fault _ _ _ Hsc) as (H1 & H2 & H3 & H4).
  exists sc, (shoulder_outcome (metrics_of data)), (spine_outcome (metrics_of data)),
    (torso_outcome (metrics_of data)), (head_outcome (metrics_of data)).
  rewrite <- generate_assessment_eq. auto 10.
Qed.

Ltac outcome_enum o H :=
  destruct o as [|?|[]]; [|discriminate H| | |]; clear H.

(** X14. With no metric at all (null, or an empty mapping) the endpoint
    always answers; the score is null when every issue mentions
    visibility or waiting, 94 when only some issue mentions visibility,
    and 80 otherwise; the assessment is one of three fixed sentences,
    and there is no recommendation, no tip and no benefit. *)
Theorem X14_no_metrics (data : PostureMetricsInput.t) :
  metrics_of data = ∅ ->
  let issues := issues_of data in
  analyze_posture_endpoint data =
  Ok {| PostureFeedback.score :=
          if all_explained issues then None
          else if scorer_visibility issues then Some 94 else Some 80;
        PostureFeedback.assessment :=
          Some (if composer_visibility issues
                then "Could not analyze clearly due to visibility. Adjust position/lighting."
                else if composer_waiting issues then "Waiting for clearer pose data."
                else "Posture analysis indicates good alignment.");
        PostureFeedback.recommendations := [];
        PostureFeedback.maintenance_tips := [];
        PostureFeedback.benefits := None |}.
Proof.
  intros Hm issues.
  assert (Hsc : calculate_overall_score (metrics_of data) issues =
                Ok (if all_explained issues then None
                    else if scorer_visibility issues then Some 94 else Some 80)).
  { rewrite Hm, calculate_overall_score_eq, insufficient_data_all_explained.
    destruct (all_explained issues); [reflexivity|].
    destruct (scorer_visibility issues); reflexivity. }
  rewrite (endpoint_returns data _ Hsc). fold issues. rewrite Hm. f_equal.
  pose proof (scorer_visibility_composer issues) as Hv.
  unfold compose, looks_great, show_extras, looks_great, only_visibility_or_waiting,
    compiled_assessment, score_at_least_85.
  destruct (all_explained issues), (scorer_visibility issues),
    (composer_visibility issues), (composer_waiting issues);
    try (specialize (Hv eq_refl); discriminate Hv); vm_compute; reflexivity.
Qed.

Lemma X14_witness :
  analyze_posture_endpoint
    {| PostureMetricsInput.metrics := None;
       PostureMetricsInput.issues := Some ["visibility: dark"; "camera moved"] |} =
  Ok {| PostureFeedback.score := Some 94;
        PostureFeedback.assessment :=
          Some "Could not analyze clearly due to visibility. Adjust position/lighting.";
        PostureFeedback.recommendations := [];
        PostureFeedback.maintenance_tips := [];
        PostureFeedback.benefits := None |}.
Proof.
  exact (X14_no_metrics
           {| PostureMetricsInput.metrics := None;
              PostureMetricsInput.issues := Some ["visibility: dark"; "camera moved"] |}
           eq_refl).
Defined.

(** X15. The phrase of the inner [except] never reaches a caller: in
    every response, "Error during metric analysis." is not among the
    phrases and the assessment does not contain it. *)
Theorem X15_error_phrase_never_returned (data : PostureMetricsInput.t)
    (fb : PostureFeedback.t) :
  analyze_posture_endpoint data = Ok fb ->
  ("Error during metric analysis."
   ∉ assessment_parts (generate_assessment (metrics_of data)))
  /\ exists s, PostureFeedback.assessment fb = Some s
               /\ contains "Error during metric analysis." s = false.
Proof.
  intros Hfb.
  destruct (returned_cases data fb Hfb)
    as (sc & o1 & o2 & o3 & o4 & _ & -> & F1 & F2 & F3 & F4 & ->).
  unfold compose, looks_great, compiled_assessment. cbn [PostureFeedback.assessment].
  generalize (composer_visibility (issues_of data)) as vis.
  generalize (composer_waiting (issues_of data)) as waiting.
  generalize (score_at_least_85 sc) as high.
  intros high waiting vis.
  outcome_enum o1 F1; outcome_enum o2 F2; outcome_enum o3 F3; outcome_enum o4 F4;
    (split; [apply (bool_decide_unpack _); vm_compute; exact I|]);
    eexists; (split; [reflexivity|]);
    destruct high, waiting, vis; vm_compute; reflexivity.
Qed.

Lemma X15_witness :
  "Error during metric analysis."
  ∉ assessment_parts (generate_assessment {[ "shoulderAngle" := PInt 12 ]}).
Proof.
  refine (proj1 (X15_error_phrase_never_returned
                   (request {[ "shoulderAngle" := PInt 12 ]} []) _ _)).
  vm_compute. reflexivity.
Defined.

(** X16. When the response has phrases, its assessment is these phrases
    separated by single spaces - every phrase ends in a period and the
    doubled period of the join is removed - followed, when an issue
    mentions visibility or unclear, by " Visibility may affect accuracy.". *)
Theorem X16_assessment_lists_the_phrases (data : PostureMetricsInput.t)
    (fb : PostureFeedback.t) :
  analyze_posture_endpoint data = Ok fb ->
  let parts := assessment_parts (generate_assessment (metrics_of data)) in
  parts <> [] ->
  PostureFeedback.assessment fb =
  Some (join " " parts ++
        (if composer_visibility (issues_of data)
         then " Visibility may affect accuracy." else "")).
Proof.
  intros Hfb.
  destruct (returned_cases data fb Hfb)
    as (sc & o1 & o2 & o3 & o4 & _ & -> & F1 & F2 & F3 & F4 & ->).
  unfold compose, looks_great, compiled_assessment. cbn [PostureFeedback.assessment].
  generalize (composer_visibility (issues_of data)) as vis.
  generalize (composer_waiting (issues_of data)) as waiting.
  generalize (score_at_least_85 sc) as high.
  intros high waiting vis.
  cbv zeta.
  outcome_enum o1 F1; outcome_enum o2 F2; outcome_enum o3 F3; outcome_enum o4 F4;
    intros Hne;
    first [ exfalso; apply Hne; vm_compute; reflexivity
          | destruct high, waiting, vis; vm_compute; reflexivity ].
Qed.

Lemma X16_witness :
  exists fb,
    analyze_posture_endpoint
      (request {[ "shoulderAngle" := PInt 7; "headForwardRatio" := PInt 1 ]}
               ["image UNCLEAR"]) = Ok fb
    /\ PostureFeedback.assessment fb =
       Some "Shoulders slightly uneven. Significant forward head posture. Visibility may affect accuracy.".
Proof.
  eexists. split; [vm_compute; reflexivity|].
  match goal with
  | |- PostureFeedback.assessment ?fb = _ =>
      refine (X16_assessment_lists_the_phrases
                (request {[ "shoulderAngle" := PInt 7; "headForwardRatio" := PInt 1 ]}
                         ["image UNCLEAR"]) fb _ _)
  end.
  - vm_compute. reflexivity.
  - vm_compute. discriminate.
Defined.

(** The lists of four outcomes without fault: no recommendation is empty
    or repeated, and there are recommendations exactly when there are
    phrases, at least one and at most three for each. *)
Lemma assess_shape (o1 o2 o3 o4 : outcome) :
  is_fault o1 = false -> is_fault o2 = false ->
  is_fault o3 = false -> is_fault o4 = false ->
  let st := assess_outcomes o1 o2 o3 o4 in
  dict_fromkeys (List.filter (fun rec => negb (String.eqb rec "")) (recommendations st))
  = recommendations st
  /\ (assessment_parts st = [] -> recommendations st = [])
  /\ (assessment_parts st <> [] -> recommendations st <> [])
  /\ (length (assessment_parts st) <= length (recommendations st)
      <= 2 * length (assessment_parts st) + 1)%nat.
Proof.
  intros F1 F2 F3 F4.
  outcome_enum o1 F1; outcome_enum o2 F2; outcome_enum o3 F3; outcome_enum o4 F4;
    vm_compute;
    (split; [reflexivity|]);
    (split; [intros H; first [reflexivity | discriminate H]|]);
    (split; [intros H H'; first [discriminate H' | apply H; reflexivity]|]); lia.
Qed.

(** X17. Recommendations and phrases go together: a response has
    recommendations exactly when it has phrases; then they are the
    generated recommendations, at least one and at most three per phrase,
    and the maintenance tips and the benefits come with them. *)
Theorem X17_recommendations_follow_phrases (data : PostureMetricsInput.t)
    (fb : PostureFeedback.t) :
  analyze_posture_endpoint data = Ok fb ->
  let st := generate_assessment (metrics_of data) in
  (PostureFeedback.recommendations fb = [] <-> assessment_parts st = [])
  /\ (assessment_parts st <> [] ->
      PostureFeedback.recommendations fb = recommendations st
      /\ PostureFeedback.maintenance_tips fb = maintenance_tips
      /\ PostureFeedback.benefits fb = Some benefits)
  /\ (length (assessment_parts st) <= length (PostureFeedback.recommendations fb)
      <= 2 * length (assessment_parts st) + 1)%nat.
Proof.
  intros Hfb.
  destruct (returned_cases data fb Hfb)
    as (sc & o1 & o2 & o3 & o4 & _ & -> & F1 & F2 & F3 & F4 & ->).
  destruct (assess_shape o1 o2 o3 o4 F1 F2 F3 F4) as (Hd & Hnil & Hne & Hlen).
  cbv zeta in *.
  unfold compose, show_extras, looks_great, only_visibility_or_waiting.
  cbn [PostureFeedback.recommendations PostureFeedback.maintenance_tips
       PostureFeedback.benefits].
  rewrite Hd.
  destruct (bool_decide (assessment_parts (assess_outcomes o1 o2 o3 o4) = [])) eqn:Hp.
  - apply bool_decide_eq_true_1 in Hp. specialize (Hnil Hp).
    rewrite Hnil, Hp in *. rewrite andb_true_r.
    split; [|split].
    + destruct (_ || _); split; reflexivity.
    + intros H. exfalso. apply H. reflexivity.
    + destruct (_ || _); simpl; lia.
  - apply bool_decide_eq_false_1 in Hp. specialize (Hne Hp).
    rewrite !andb_false_r. cbn [andb negb].
    split; [|split].
    + split; intros H; contradiction.
    + intros _. auto.
    + exact Hlen.
Qed.

Lemma X17_witness :
  exists fb,
    analyze_posture_endpoint
      (request {[ "torsoAngleFromVertical" := PInt 25 ]} ["visibility low"]) = Ok fb
    /\ PostureFeedback.maintenance_tips fb = maintenance_tips
    /\ length (PostureFeedback.recommendations fb) = 3%nat.
Proof.
  eexists. split; [vm_compute; reflexivity|].
  split; [|reflexivity].
  match goal with
  | |- PostureFeedback.maintenance_tips ?fb = _ =>
      refine (proj1 (proj2 (proj1 (proj2
                (X17_recommendations_follow_phrases
                   (request {[ "torsoAngleFromVertical" := PInt 25 ]} ["visibility low"])
                   fb _)) _)))
  end.
  - vm_compute. reflexivity.
  - vm_compute. discriminate.
Defined.

(** The compiled assessment is never the sentence of a great posture. *)
Lemma compiled_not_great (o1 o2 o3 o4 : outcome) (i : list string) :
  is_fault o1 = false -> is_fault o2 = false ->
  is_fault o3 = false -> is_fault o4 = false ->
  compiled_assessment (assess_outcomes o1 o2 o3 o4) i
  <> "Posture looks great! Keep it up.".
Proof.
  intros F1 F2 F3 F4. unfold compiled_assessment.
  generalize (composer_visibility i) as vis.
  generalize (composer_waiting i) as waiting.
  intros waiting vis.
  outcome_enum o1 F1; outcome_enum o2 F2; outcome_enum o3 F3; outcome_enum o4 F4;
    destruct waiting, vis; vm_compute; discriminate.
Qed.

Lemma score_at_least_85_spec (sc : option Z) :
  score_at_least_85 sc = true <-> exists z, sc = Some z /\ 85 <= z.
Proof.
  unfold score_at_least_85. destruct sc as [z|].
  - rewrite Z.leb_le. split; [intros H; exists z; auto | intros (z' & [= <-] & H); exact H].
  - split; [discriminate | intros (z & H & _); discriminate H].
Qed.

(** X18. The assessment is "Posture looks great! Keep it up." exactly
    when the score is at least 85, there is no phrase and no issue
    mentions visibility or unclear. Such a response has no
    recommendation, and it carries the maintenance tips and the benefits
    unless an issue mentions waiting. *)
Theorem X18_looks_great (data : PostureMetricsInput.t) (fb : PostureFeedback.t) :
  analyze_posture_endpoint data = Ok fb ->
  (PostureFeedback.assessment fb = Some "Posture looks great! Keep it up." <->
   (exists z, PostureFeedback.score fb = Some z /\ 85 <= z)
   /\ assessment_parts (generate_assessment (metrics_of data)) = []
   /\ composer_visibility (issues_of data) = false)
  /\ (PostureFeedback.assessment fb = Some "Posture looks great! Keep it up." ->
      PostureFeedback.recommendations fb = []
      /\ PostureFeedback.maintenance_tips fb =
         (if composer_waiting (issues_of data) then [] else maintenance_tips)
      /\ PostureFeedback.benefits fb =
         (if composer_waiting (issues_of data) then None else Some benefits)).
Proof.
  intros Hfb.
  destruct (returned_cases data fb Hfb)
    as (sc & o1 & o2 & o3 & o4 & _ & -> & F1 & F2 & F3 & F4 & ->).
  destruct (assess_shape o1 o2 o3 o4 F1 F2 F3 F4) as (Hd & Hnil & _ & _).
  pose proof (compiled_not_great o1 o2 o3 o4 (issues_of data) F1 F2 F3 F4) as Hng.
  cbv zeta in *.
  unfold compose, show_extras, only_visibility_or_waiting.
  cbn [PostureFeedback.recommendations PostureFeedback.maintenance_tips
       PostureFeedback.benefits PostureFeedback.assessment PostureFeedback.score].
  rewrite <- score_at_least_85_spec.
  assert (Hiff : looks_great sc (assess_outcomes o1 o2 o3 o4) (issues_of data) = true <->
                 score_at_least_85 sc = true
                 /\ assessment_parts (assess_outcomes o1 o2 o3 o4) = []
                 /\ composer_visibility (issues_of data) = false).
  { unfold looks_great.
    rewrite !andb_true_iff, bool_decide_eq_true, negb_true_iff. tauto. }
  assert (Hg : Some (if looks_great sc (assess_outcomes o1 o2 o3 o4) (issues_of data)
                     then "Posture looks great! Keep it up."
                     else compiled_assessment (assess_outcomes o1 o2 o3 o4) (issues_of data))
               = Some "Posture looks great! Keep it up." ->
               looks_great sc (assess_outcomes o1 o2 o3 o4) (issues_of data) = true).
  { destruct (looks_great _ _ _); [reflexivity|]. intros [= H]. contradiction. }
  split.
  - rewrite <- Hiff. split; [exact Hg | intros ->; reflexivity].
  - intros H. specialize (Hg H). rewrite Hg.
    apply Hiff in Hg as (_ & Hp & Hv).
    rewrite Hd, (Hnil Hp), Hp, Hv. simpl.
    destruct (composer_waiting (issues_of data)); auto.
Qed.

Lemma X18_witness :
  exists fb,
    analyze_posture_endpoint
      (request {[ "shoulderAngle" := PInt 1; "torsoAngleFromVertical" := PInt 1;
                  "spineHorizontalOffsetRatio" := PInt 0; "headForwardRatio" := PInt 0 ]}
               ["Waiting for pose"]) = Ok fb
    /\ PostureFeedback.assessment fb = Some "Posture looks great! Keep it up."
    /\ PostureFeedback.maintenance_tips fb = [].
Proof.
  eexists. split; [vm_compute; reflexivity|].
  split; [reflexivity|].
  match goal with
  | |- PostureFeedback.maintenance_tips ?fb = _ =>
      refine (proj1 (proj2 (proj2
                (X18_looks_great
                   (request {[ "shoulderAngle" := PInt 1; "torsoAngleFromVertical" := PInt 1;
                               "spineHorizontalOffsetRatio" := PInt 0;
                               "headForwardRatio" := PInt 0 ]}
                            ["Waiting for pose"])
                   fb _) _)))
  end.
  - vm_compute. reflexivity.
  - reflexivity.
Defined.
